(** * anduin-kube-deploy: the Kubernetes adaptation layer (kubernetes.go)

    A shallow embedding of [kubernetes.go].  The Kubernetes client, the label
    selector parser, the kubeconfig loader and the YAML decoder are external
    collaborators: they are taken as parameters, and every API call the
    dispatcher makes is recorded in a trace, so that the order and the
    arguments of the calls can be stated and proved. *)

From Stdlib Require Import Ascii String List ZArith.
Import ListNotations.
Open Scope string_scope.
Open Scope list_scope.
Open Scope Z_scope.

Set Implicit Arguments.

(** ** Errors *)

(** [unversioned.Status]: only [Code] is inspected by this file. *)
Record Status := mkStatus {
  Code : Z;
  Reason : string;
  Message : string
}.

(** A non-nil Go [error].  [StatusError] is the dynamic type
    [errors.StatusError] (behind a pointer); [OpaqueError] stands for every other dynamic type
    a collaborator may return.

    Modelled from the spec: [UnsupportedResource] is declared in another file
    of the repository; the spec names it as the error kind
    [UnsupportedResource(kind)], carrying the offending kind. *)
Inductive error :=
| StatusError (ErrStatus : Status)
| UnsupportedResource (kind : string)
| OpaqueError (msg : string).

(** ** Requests to the cluster *)

(** The typed sub-clients reached through [Core()], [Extensions()],
    [Batch()] and [Apps()]. *)
Inductive Resource :=
| Deployments | ReplicaSets          (* Extensions() *)
| Services | PersistentVolumeClaims | ConfigMaps | Pods   (* Core() *)
| Jobs                               (* Batch() *)
| PetSets.                           (* Apps() *)

(** [api.DeleteOptions]; [GracePeriodSeconds] is a pointer to an [int64]. *)
Record DeleteOptions := mkDeleteOptions {
  GracePeriodSeconds : option Z
}.

(** [api.NewDeleteOptions(grace)] *)
Definition NewDeleteOptions (grace : Z) : DeleteOptions :=
  {| GracePeriodSeconds := Some grace |}.

(** [api.ListOptions{LabelSelector: selector}] *)
Record ListOptions (Selector : Type) := mkListOptions {
  LabelSelector : Selector
}.

(** [v1.Namespace{ObjectMeta: v1.ObjectMeta{Name: ...}}] *)
Record v1_Namespace := mkNamespace {
  ObjectMeta_Name : string
}.

(** The dynamic type of the [interface{}] handed to [createResource]. *)
Inductive GoType :=
| T_v1beta1_Deployment
| T_v1_Service
| T_v1batch_Job
| T_v1_PersistentVolumeClaim
| T_v1_ConfigMap
| T_v1alpha1_PetSet
| T_other.

Definition GoType_eqb (a b : GoType) : bool :=
  match a, b with
  | T_v1beta1_Deployment, T_v1beta1_Deployment
  | T_v1_Service, T_v1_Service
  | T_v1batch_Job, T_v1batch_Job
  | T_v1_PersistentVolumeClaim, T_v1_PersistentVolumeClaim
  | T_v1_ConfigMap, T_v1_ConfigMap
  | T_v1alpha1_PetSet, T_v1alpha1_PetSet
  | T_other, T_other => true
  | _, _ => false
  end.

(** An [interface{}] value: its dynamic type and the object behind it. *)
Record Dynamic (Body : Type) := mkDynamic {
  dyn_type : GoType;
  dyn_value : Body
}.

(** One call on the client set. *)
Inductive Call (Body Selector : Type) :=
| NamespacesGet (name : string)
| NamespacesCreate (ns : v1_Namespace)
| Get (r : Resource) (namespace name : string)
| Create (r : Resource) (namespace : string) (obj : Body)
| Delete (r : Resource) (namespace name : string) (options : DeleteOptions)
| List (r : Resource) (namespace : string) (options : ListOptions Selector).

Arguments NamespacesGet {Body Selector} name.
Arguments NamespacesCreate {Body Selector} ns.
Arguments Get {Body Selector} r namespace name.
Arguments Create {Body Selector} r namespace obj.
Arguments Delete {Body Selector} r namespace name options.
Arguments List {Body Selector} r namespace options.

(** What a call returns: the error (nil is [None]) and, for [List], the
    [Name] of every element of [Items].  The object returned by [Get] and
    [Create] is discarded by every caller in this file. *)
Record Response := mkResponse {
  Items : list string;
  err : option error
}.

(** ** Running against a cluster *)

(** A Go call either returns or panics (a failed type assertion). *)
Inductive Outcome (A : Type) :=
| Returned (a : A)
| Panicked.

Arguments Panicked {A}.

Section Dispatcher.

(** The object payloads, the parsed label selectors and the state of the
    remote cluster are opaque. *)
Variables Body Selector Cluster : Type.

(** [labels.Parse] *)
Variable labels_Parse : string -> error + Selector.

(** [kubernetes.Clientset]: how the cluster answers a call and what state
    it is in afterwards. *)
Variable kubeClient : Call Body Selector -> Cluster -> Response * Cluster.

(** A computation runs from a cluster state to an outcome, the state
    after it, and the calls it issued, oldest first. *)
Definition M (A : Type) : Type :=
  Cluster -> Outcome A * Cluster * list (Call Body Selector).

Definition ret {A} (a : A) : M A :=
  fun w => (Returned a, w, []).

Definition bind {A B} (m : M A) (k : A -> M B) : M B :=
  fun w =>
    match m w with
    | (Returned a, w1, t1) =>
        match k a w1 with
        | (o, w2, t2) => (o, w2, t1 ++ t2)
        end
    | (Panicked, w1, t1) => (Panicked, w1, t1)
    end.

Definition panic {A} : M A :=
  fun w => (Panicked, w, []).

Definition call (c : Call Body Selector) : M Response :=
  fun w => let (r, w') := kubeClient c w in (Returned r, w', [c]).

Notation "x <- m ;; k" := (bind m (fun x => k))
  (at level 61, m at next level, right associativity).

(** The type assertion [x.(T)]: the value behind the interface, or a panic. *)
Definition type_assert (T : GoType) (x : Dynamic Body) : M Body :=
  if GoType_eqb (dyn_type x) T then ret (dyn_value x) else panic.

(** [for _, x := range xs { err = body(x); if err != nil { return err } }
     return nil] *)
Fixpoint range_until_error {A} (xs : list A) (body : A -> M (option error))
  : M (option error) :=
  match xs with
  | [] => ret None
  | x :: rest =>
      e <- body x ;;
      match e with
      | Some _ => ret e
      | None => range_until_error rest body
      end
  end.

(** [isResourceNotExist] *)
Definition isResourceNotExist (e : error) : bool :=
  match e with
  | StatusError st => if Code st =? 404 then true else false
  | _ => false
  end.

(** [createNamespace] *)
Definition createNamespace (namespace : string) : M (option error) :=
  r <- call (NamespacesGet namespace) ;;
  match err r with
  | None => ret None
  | Some e =>
      if negb (isResourceNotExist e) then ret (Some e)
      else
        let ns := {| ObjectMeta_Name := namespace |} in
        r' <- call (NamespacesCreate ns) ;;
        ret (err r')
  end.

(** The tail of [checkResourceExist], after the switch. *)
Definition exist_result (e : option error) : bool * option error :=
  match e with
  | None => (true, None)
  | Some e' => if isResourceNotExist e' then (false, None) else (false, Some e')
  end.

(** [checkResourceExist] *)
Definition checkResourceExist (kind name namespace : string)
  : M (bool * option error) :=
  if (kind =? "deployment")%string then
    r <- call (Get Deployments namespace name) ;; ret (exist_result (err r))
  else if (kind =? "service")%string then
    r <- call (Get Services namespace name) ;; ret (exist_result (err r))
  else if (kind =? "job")%string then
    r <- call (Get Jobs namespace name) ;; ret (exist_result (err r))
  else if (kind =? "persistentvolumeclaim")%string then
    r <- call (Get PersistentVolumeClaims namespace name) ;;
    ret (exist_result (err r))
  else if (kind =? "configmap")%string then
    r <- call (Get ConfigMaps namespace name) ;; ret (exist_result (err r))
  else if (kind =? "petset")%string then
    r <- call (Get PetSets namespace name) ;; ret (exist_result (err r))
  else
    ret (false, Some (UnsupportedResource kind)).

(** [createResource] *)
Definition createResource (kind namespace : string)
    (resourceData : Dynamic Body) : M (option error) :=
  if (kind =? "deployment")%string then
    obj <- type_assert T_v1beta1_Deployment resourceData ;;
    r <- call (Create Deployments namespace obj) ;; ret (err r)
  else if (kind =? "service")%string then
    obj <- type_assert T_v1_Service resourceData ;;
    r <- call (Create Services namespace obj) ;; ret (err r)
  else if (kind =? "job")%string then
    obj <- type_assert T_v1batch_Job resourceData ;;
    r <- call (Create Jobs namespace obj) ;; ret (err r)
  else if (kind =? "persistentvolumeclaim")%string then
    obj <- type_assert T_v1_PersistentVolumeClaim resourceData ;;
    r <- call (Create PersistentVolumeClaims namespace obj) ;; ret (err r)
  else if (kind =? "configmap")%string then
    obj <- type_assert T_v1_ConfigMap resourceData ;;
    r <- call (Create ConfigMaps namespace obj) ;; ret (err r)
  else if (kind =? "petset")%string then
    obj <- type_assert T_v1alpha1_PetSet resourceData ;;
    r <- call (Create PetSets namespace obj) ;; ret (err r)
  else
    ret (Some (UnsupportedResource kind)).

(** [destroyDeployment] *)
Definition destroyDeployment (name namespace : string) : M (option error) :=
  let deleteOptions := NewDeleteOptions 0 in
  r <- call (Delete Deployments namespace name deleteOptions) ;;
  match err r with
  | Some e => ret (Some e)
  | None =>
      match labels_Parse ("name=" ++ name)%string with
      | inl e => ret (Some e)
      | inr selector =>
          replicaSets <-
            call (List ReplicaSets namespace {| LabelSelector := selector |}) ;;
          match err replicaSets with
          | Some e => ret (Some e)
          | None =>
              range_until_error (Items replicaSets) (fun replicaSet =>
                d <- call (Delete ReplicaSets namespace replicaSet deleteOptions) ;;
                ret (err d))
          end
      end
  end.

(** [destroyJob] *)
Definition destroyJob (name namespace : string) : M (option error) :=
  let deleteOptions := NewDeleteOptions 0 in
  r <- call (Delete Jobs namespace name deleteOptions) ;;
  match err r with
  | Some e => ret (Some e)
  | None =>
      match labels_Parse ("job-name=" ++ name)%string with
      | inl e => ret (Some e)
      | inr selector =>
          pods <- call (List Pods namespace {| LabelSelector := selector |}) ;;
          match err pods with
          | Some e => ret (Some e)
          | None =>
              range_until_error (Items pods) (fun pod =>
                d <- call (Delete Pods namespace pod deleteOptions) ;;
                ret (err d))
          end
      end
  end.

(** [destroyResource] *)
Definition destroyResource (kind name namespace : string) : M (option error) :=
  let deleteOptions := NewDeleteOptions 0 in
  if (kind =? "deployment")%string then
    destroyDeployment name namespace
  else if (kind =? "service")%string then
    r <- call (Delete Services namespace name deleteOptions) ;; ret (err r)
  else if (kind =? "job")%string then
    destroyJob name namespace
  else if (kind =? "persistentvolumeclaim")%string then
    r <- call (Delete PersistentVolumeClaims namespace name deleteOptions) ;;
    ret (err r)
  else if (kind =? "configmap")%string then
    r <- call (Delete ConfigMaps namespace name deleteOptions) ;; ret (err r)
  else if (kind =? "petset")%string then
    r <- call (Delete PetSets namespace name deleteOptions) ;; ret (err r)
  else
    ret (Some (UnsupportedResource kind)).

End Dispatcher.

Arguments ret {Body Selector Cluster A} a _.
Arguments bind {Body Selector Cluster A B} m k _.
Arguments panic {Body Selector Cluster A} _.
Arguments call {Body Selector Cluster} kubeClient c _.
Arguments type_assert {Body Selector Cluster} T x _.
Arguments range_until_error {Body Selector Cluster A} xs body _.
Arguments createNamespace {Body Selector Cluster} kubeClient namespace.
Arguments checkResourceExist {Body Selector Cluster} kubeClient kind name namespace.
Arguments createResource {Body Selector Cluster} kubeClient kind namespace resourceData.
Arguments destroyDeployment {Body Selector Cluster} labels_Parse kubeClient name namespace.
Arguments destroyJob {Body Selector Cluster} labels_Parse kubeClient name namespace.
Arguments destroyResource {Body Selector Cluster} labels_Parse kubeClient kind name namespace.

(** ** The closed set of kinds *)

(** The six cases of the switch, in the order they are written. *)
Definition recognized_kinds : list string :=
  ["deployment"; "service"; "job"; "persistentvolumeclaim"; "configmap"; "petset"].

(** The typed sub-client each case of the switch selects. *)
Definition kind_resource (kind : string) : option Resource :=
  if (kind =? "deployment")%string then Some Deployments
  else if (kind =? "service")%string then Some Services
  else if (kind =? "job")%string then Some Jobs
  else if (kind =? "persistentvolumeclaim")%string then Some PersistentVolumeClaims
  else if (kind =? "configmap")%string then Some ConfigMaps
  else if (kind =? "petset")%string then Some PetSets
  else None.

(** The error is a structured API status error carrying code 404. *)
Definition is_status_404 (e : error) : Prop :=
  exists st, e = StatusError st /\ Code st = 404.

(** ** Reading a trace *)

Definition is_create {Body Selector} (c : Call Body Selector) : bool :=
  match c with
  | NamespacesCreate _ | Create _ _ _ => true
  | _ => false
  end.

Definition is_delete {Body Selector} (c : Call Body Selector) : bool :=
  match c with
  | Delete _ _ _ _ => true
  | _ => false
  end.

(** If the call is a delete, it asks for a grace period of zero seconds. *)
Definition immediate {Body Selector} (c : Call Body Selector) : Prop :=
  forall r namespace name o,
    c = Delete r namespace name o -> GracePeriodSeconds o = Some 0.

(** The calls issued by a run. *)
Definition calls {A Body Selector Cluster}
    (run : Outcome A * Cluster * list (Call Body Selector))
  : list (Call Body Selector) := snd run.

Definition count_calls {Body Selector} (p : Call Body Selector -> bool)
    (t : list (Call Body Selector)) : nat :=
  length (filter p t).

(** ** The cascade, as the specification words it

    "Delete the parent, then list the children matching the label, then
    delete each matching child.  If any step fails, abort and propagate."
    The relation below says this step by step; it is compared with
    [destroyDeployment] and [destroyJob] further down. *)

Section CascadeSpec.

Variables Body Selector Cluster : Type.
Variable labels_Parse : string -> error + Selector.
Variable kubeClient : Call Body Selector -> Cluster -> Response * Cluster.

(** Deleting the listed children one by one, stopping at the first error. *)
Inductive child_deletes (child : Resource) (namespace : string)
  : list string -> Cluster -> option error -> Cluster
    -> list (Call Body Selector) -> Prop :=
| child_deletes_done w :
    child_deletes child namespace [] w None w []
| child_deletes_abort n rest w r w' e :
    kubeClient (Delete child namespace n (NewDeleteOptions 0)) w = (r, w') ->
    err r = Some e ->
    child_deletes child namespace (n :: rest) w (Some e) w'
      [Delete child namespace n (NewDeleteOptions 0)]
| child_deletes_next n rest w r w' res w'' t :
    kubeClient (Delete child namespace n (NewDeleteOptions 0)) w = (r, w') ->
    err r = None ->
    child_deletes child namespace rest w' res w'' t ->
    child_deletes child namespace (n :: rest) w res w''
      (Delete child namespace n (NewDeleteOptions 0) :: t).

(** The whole cascade from state [w]: the error returned, the state
    reached and the calls issued. *)
Inductive cascade (parent child : Resource) (selector : string)
    (name namespace : string) (w : Cluster)
  : option error -> Cluster -> list (Call Body Selector) -> Prop :=
| cascade_parent_fails r w1 e :
    kubeClient (Delete parent namespace name (NewDeleteOptions 0)) w = (r, w1) ->
    err r = Some e ->
    cascade parent child selector name namespace w (Some e) w1
      [Delete parent namespace name (NewDeleteOptions 0)]
| cascade_selector_fails r w1 e :
    kubeClient (Delete parent namespace name (NewDeleteOptions 0)) w = (r, w1) ->
    err r = None ->
    labels_Parse selector = inl e ->
    cascade parent child selector name namespace w (Some e) w1
      [Delete parent namespace name (NewDeleteOptions 0)]
| cascade_list_fails r w1 sel l w2 e :
    kubeClient (Delete parent namespace name (NewDeleteOptions 0)) w = (r, w1) ->
    err r = None ->
    labels_Parse selector = inr sel ->
    kubeClient (List child namespace {| LabelSelector := sel |}) w1 = (l, w2) ->
    err l = Some e ->
    cascade parent child selector name namespace w (Some e) w2
      [Delete parent namespace name (NewDeleteOptions 0);
       List child namespace {| LabelSelector := sel |}]
| cascade_children r w1 sel l w2 res w3 t :
    kubeClient (Delete parent namespace name (NewDeleteOptions 0)) w = (r, w1) ->
    err r = None ->
    labels_Parse selector = inr sel ->
    kubeClient (List child namespace {| LabelSelector := sel |}) w1 = (l, w2) ->
    err l = None ->
    child_deletes child namespace (Items l) w2 res w3 t ->
    cascade parent child selector name namespace w res w3
      (Delete parent namespace name (NewDeleteOptions 0)
       :: List child namespace {| LabelSelector := sel |} :: t).

End CascadeSpec.

(** ** Client loader *)

(** Modelled from the spec: [appConfig] is declared in another file of the
    repository; the spec describes it as a configuration value exposing
    [configFile] (path, or empty) and [context] (name, or empty). *)
Record appConfig := mkAppConfig {
  configFile : string;
  context : string
}.

(** [clientcmd.ClientConfigLoadingRules].  [ExplicitPath] names one
    kubeconfig file; [Precedence] is the chain of kubeconfig files the
    library falls back on when there is no explicit path.  The library's
    constructor [NewDefaultClientConfigLoadingRules] fills [Precedence]
    with the default discovery chain (the files of the KUBECONFIG variable,
    or the kubeconfig of the home directory); a struct literal that does
    not name the field leaves it nil.  The literal in the source sets
    [ExplicitPath] and nothing else. *)
Record ClientConfigLoadingRules := mkLoadingRules {
  ExplicitPath : string;
  Precedence : list string
}.

(** [clientcmd.ConfigOverrides]; the source touches [CurrentContext] only. *)
Record ConfigOverrides := mkOverrides {
  CurrentContext : string
}.

(** [&clientcmd.ClientConfigLoadingRules{}]: no explicit path and no
    chain to fall back on. *)
Definition zero_ClientConfigLoadingRules : ClientConfigLoadingRules :=
  {| ExplicitPath := ""; Precedence := [] |}.

(** The rules carry a discovery chain: at least one kubeconfig location to
    fall back on when no explicit path is given. *)
Definition default_discovery (rules : ClientConfigLoadingRules) : Prop :=
  Precedence rules <> [].

(** [&clientcmd.ConfigOverrides{}] *)
Definition zero_ConfigOverrides : ConfigOverrides :=
  {| CurrentContext := "" |}.

Section ClientLoader.

Variables RestConfig Clientset : Type.

(** [clientcmd.NewNonInteractiveDeferredLoadingClientConfig(rules,
    overrides).ClientConfig()] *)
Variable ClientConfig :
  ClientConfigLoadingRules -> ConfigOverrides -> error + RestConfig.

(** [kubernetes.NewForConfig] *)
Variable NewForConfig : RestConfig -> error + Clientset.

(** Lines 17-19 of [loadKubernetesClient]: the literal names
    [ExplicitPath] only, so [Precedence] is nil. *)
Definition clientConfigLoader (config : appConfig) : ClientConfigLoadingRules :=
  {| ExplicitPath := configFile config; Precedence := [] |}.

(** Lines 20-23 of [loadKubernetesClient]. *)
Definition configOverrides (config : appConfig) : ConfigOverrides :=
  let configOverrides := zero_ConfigOverrides in
  if negb (context config =? "")%string
  then {| CurrentContext := context config |}
  else configOverrides.

(** [loadKubernetesClient] *)
Definition loadKubernetesClient (config : appConfig) : error + Clientset :=
  match ClientConfig (clientConfigLoader config) (configOverrides config) with
  | inl e => inl e
  | inr kubeConfig => NewForConfig kubeConfig
  end.

End ClientLoader.

(** ** Manifest decoder *)

Record ResourceMetadata := mkMetadata {
  Name : string;
  Namespace : string
}.

(** [KubernetesResource], with its [yaml] tags [kind], [metadata],
    [metadata.name] and [metadata.namespace]. *)
Record KubernetesResource := mkResource {
  Kind : string;
  Metadata : ResourceMetadata
}.

(** [&KubernetesResource{}] *)
Definition zero_KubernetesResource : KubernetesResource :=
  {| Kind := ""; Metadata := {| Name := ""; Namespace := "" |} |}.

(** What the YAML library found in a document it accepted: the string a
    key path decodes to, for the key paths that are present. *)
Definition Document : Type := list string -> option string.

Section ManifestDecoder.

(** The YAML library's reading of the bytes: an error, or the document. *)
Variable yaml_document : list Byte.byte -> error + Document.

(** Storing into a tagged field: a key that is present overwrites the
    field, a key that is absent leaves it as it was. *)
Definition decode_field (doc : Document) (path : list string) (old : string)
  : string :=
  match doc path with
  | Some v => v
  | None => old
  end.

(** [yaml.Unmarshal(data, r)] with [r] pointing to a [KubernetesResource]:
    the struct after the call, and the error.  The library is external;
    the caller relies on its behaviour on a struct with [yaml] tags:
    input it rejects is an error, and otherwise each tagged field whose key
    is present is overwritten while every other field stays as it was.
    After an error the caller drops the struct, so what it holds then is
    immaterial. *)
Definition yaml_Unmarshal (data : list Byte.byte) (r : KubernetesResource)
  : KubernetesResource * option error :=
  match yaml_document data with
  | inl e => (r, Some e)
  | inr doc =>
      ({| Kind := decode_field doc ["kind"] (Kind r);
          Metadata :=
            {| Name := decode_field doc ["metadata"; "name"] (Name (Metadata r));
               Namespace := decode_field doc ["metadata"; "namespace"]
                              (Namespace (Metadata r)) |} |},
       None)
  end.

(** [loadKubernetesResource]: the pointer ([None] is nil) and the error. *)
Definition loadKubernetesResource (data : list Byte.byte)
  : option KubernetesResource * option error :=
  let r := zero_KubernetesResource in
  let (r', err) := yaml_Unmarshal data r in
  match err with
  | Some e => (None, Some e)
  | None => (Some r', None)
  end.

End ManifestDecoder.

(** ** A small in-memory cluster

    A stand-in for the collaborators, used to run the definitions on
    concrete inputs. *)

Module Demo.

Definition Body := string.
Definition Selector := string.

(** The namespaces and the objects (sub-client, namespace, name) that
    exist; when [reachable] is false every call fails with a transport
    error. *)
Record cluster := mkCluster {
  reachable : bool;
  namespaces : list string;
  objects : list (Resource * string * string)
}.

Definition Resource_eqb (a b : Resource) : bool :=
  match a, b with
  | Deployments, Deployments | ReplicaSets, ReplicaSets
  | Services, Services | PersistentVolumeClaims, PersistentVolumeClaims
  | ConfigMaps, ConfigMaps | Pods, Pods | Jobs, Jobs | PetSets, PetSets => true
  | _, _ => false
  end.

Definition same (r : Resource) (namespace name : string)
    (o : Resource * string * string) : bool :=
  let '(r', namespace', name') := o in
  Resource_eqb r r' && (namespace =? namespace')%string && (name =? name')%string.

Definition within (r : Resource) (namespace : string)
    (o : Resource * string * string) : bool :=
  let '(r', namespace', _) := o in
  Resource_eqb r r' && (namespace =? namespace')%string.

Definition ok : Response := {| Items := []; err := None |}.

Definition failed (e : error) : Response := {| Items := []; err := Some e |}.

Definition not_found : error :=
  StatusError {| Code := 404; Reason := "NotFound"; Message := "not found" |}.

Definition conflict : error :=
  StatusError {| Code := 409; Reason := "AlreadyExists"; Message := "exists" |}.

Definition unreachable : error := OpaqueError "dial tcp: connection refused".

Definition client (c : Call Body Selector) (w : cluster)
  : Response * cluster :=
  if negb (reachable w) then (failed unreachable, w) else
  match c with
  | NamespacesGet n =>
      if existsb (String.eqb n) (namespaces w) then (ok, w)
      else (failed not_found, w)
  | NamespacesCreate ns =>
      if existsb (String.eqb (ObjectMeta_Name ns)) (namespaces w)
      then (failed conflict, w)
      else (ok, {| reachable := true;
                   namespaces := ObjectMeta_Name ns :: namespaces w;
                   objects := objects w |})
  | Get r namespace n =>
      if existsb (same r namespace n) (objects w) then (ok, w)
      else (failed not_found, w)
  | Create r namespace obj =>
      if existsb (same r namespace obj) (objects w) then (failed conflict, w)
      else (ok, {| reachable := true;
                   namespaces := namespaces w;
                   objects := (r, namespace, obj) :: objects w |})
  | Delete r namespace n _ =>
      if existsb (same r namespace n) (objects w)
      then (ok, {| reachable := true;
                   namespaces := namespaces w;
                   objects := filter (fun o => negb (same r namespace n o))
                                (objects w) |})
      else (failed not_found, w)
  | List r namespace _ =>
      ({| Items := map snd (filter (within r namespace) (objects w));
          err := None |}, w)
  end.

(** A selector parser that rejects text containing a space. *)
Definition parse (s : string) : error + Selector :=
  if existsb (Ascii.eqb " "%char) (list_ascii_of_string s)
  then inl (OpaqueError "invalid label selector")
  else inr s.

Definition w0 : cluster :=
  {| reachable := true;
     namespaces := ["prod"];
     objects := [(Deployments, "prod", "web");
                 (ReplicaSets, "prod", "web-1");
                 (ReplicaSets, "prod", "web-2");
                 (Services, "prod", "api");
                 (Jobs, "prod", "batch-1");
                 (Pods, "prod", "batch-1-x");
                 (Deployments, "prod", "bad name");
                 (Jobs, "prod", "bad name")] |}.

Definition offline : cluster :=
  {| reachable := false; namespaces := []; objects := [] |}.

(** A reading of manifests that knows two byte strings: the empty input,
    an empty document, and ["x"], the manifest
    [kind: service / metadata: name: api, namespace: prod]; everything
    else is a syntax error. *)
Definition manifest : Document :=
  fun path =>
    match path with
    | ["kind"] => Some "service"
    | ["metadata"; "name"] => Some "api"
    | ["metadata"; "namespace"] => Some "prod"
    | _ => None
    end.

Definition document (data : list Byte.byte) : error + Document :=
  match data with
  | [] => inr (fun _ => None)
  | [Byte.x78] => inr manifest
  | _ => inl (OpaqueError "yaml: did not find expected node content")
  end.

(** A kubeconfig loader that knows one file and one context: it reads the
    explicit path when there is one and the precedence chain otherwise. *)
Definition client_config (rules : ClientConfigLoadingRules)
    (overrides : ConfigOverrides) : error + string :=
  let files :=
    if (ExplicitPath rules =? "")%string then Precedence rules
    else [ExplicitPath rules] in
  match files with
  | [] => inl (OpaqueError "invalid configuration: no configuration has been provided")
  | file :: _ =>
      if (file =? "/etc/kube/config")%string
      then inr (if (CurrentContext overrides =? "")%string
                then "current" else CurrentContext overrides)
      else inl (OpaqueError "stat: no such file or directory")
  end.

Definition new_for_config (c : string) : error + string :=
  if (c =? "staging")%string then inr "client@staging"
  else if (c =? "current")%string then inr "client@current"
  else inl (OpaqueError "context does not exist").

End Demo.

(** ** More ways to read a call *)

(** The dynamic type each case of the switch in [createResource] asserts
    on its payload. *)
Definition kind_payload_type (kind : string) : option GoType :=
  if (kind =? "deployment")%string then Some T_v1beta1_Deployment
  else if (kind =? "service")%string then Some T_v1_Service
  else if (kind =? "job")%string then Some T_v1batch_Job
  else if (kind =? "persistentvolumeclaim")%string
  then Some T_v1_PersistentVolumeClaim
  else if (kind =? "configmap")%string then Some T_v1_ConfigMap
  else if (kind =? "petset")%string then Some T_v1alpha1_PetSet
  else None.

(** The namespace a call addresses; the calls on namespaces themselves
    address none. *)
Definition call_namespace {Body Selector} (c : Call Body Selector)
  : option string :=
  match c with
  | NamespacesGet _ | NamespacesCreate _ => None
  | Get _ namespace _ | Create _ namespace _
  | Delete _ namespace _ _ | List _ namespace _ => Some namespace
  end.

Definition is_get {Body Selector} (c : Call Body Selector) : bool :=
  match c with
  | Get _ _ _ => true
  | _ => false
  end.

Definition is_list {Body Selector} (c : Call Body Selector) : bool :=
  match c with
  | List _ _ _ => true
  | _ => false
  end.

(** What a destroy may issue: a delete or a list, in the given namespace. *)
Definition destroy_call {Body Selector} (namespace : string)
    (c : Call Body Selector) : Prop :=
  (is_delete c || is_list c)%bool = true /\ call_namespace c = Some namespace.

(** * Properties *)

(** ** The classification helper and the kind table *)

Lemma isResourceNotExist_true_iff (e : error) :
  isResourceNotExist e = true <-> is_status_404 e.
Proof.
  unfold is_status_404; split.
  - destruct e as [st | k | m]; simpl; try discriminate.
    destruct (Code st =? 404) eqn:E; try discriminate.
    intros _. exists st. split; [reflexivity | now apply Z.eqb_eq].
  - intros (st & -> & H). simpl. now rewrite H.
Qed.

Lemma isResourceNotExist_false_iff (e : error) :
  isResourceNotExist e = false <-> ~ is_status_404 e.
Proof.
  rewrite <- isResourceNotExist_true_iff.
  destruct (isResourceNotExist e); split; intros H;
    try reflexivity; try discriminate; try (intros H'; discriminate).
  exfalso; now apply H.
Qed.

Lemma recognized_kinds_cases (kind : string) :
  In kind recognized_kinds ->
  kind = "deployment" \/ kind = "service" \/ kind = "job" \/
  kind = "persistentvolumeclaim" \/ kind = "configmap" \/ kind = "petset".
Proof.
  unfold recognized_kinds; simpl.
  intros [H | [H | [H | [H | [H | [H | []]]]]]]; symmetry in H; tauto.
Qed.

Lemma kind_resource_recognized (kind : string) :
  In kind recognized_kinds <-> kind_resource kind <> None.
Proof.
  split.
  - intros H. apply recognized_kinds_cases in H.
    destruct H as [-> | [-> | [-> | [-> | [-> | ->]]]]]; discriminate.
  - unfold kind_resource, recognized_kinds. intros H.
    destruct (kind =? "deployment")%string eqn:E1;
      [apply String.eqb_eq in E1; subst; simpl; tauto |].
    destruct (kind =? "service")%string eqn:E2;
      [apply String.eqb_eq in E2; subst; simpl; tauto |].
    destruct (kind =? "job")%string eqn:E3;
      [apply String.eqb_eq in E3; subst; simpl; tauto |].
    destruct (kind =? "persistentvolumeclaim")%string eqn:E4;
      [apply String.eqb_eq in E4; subst; simpl; tauto |].
    destruct (kind =? "configmap")%string eqn:E5;
      [apply String.eqb_eq in E5; subst; simpl; tauto |].
    destruct (kind =? "petset")%string eqn:E6;
      [apply String.eqb_eq in E6; subst; simpl; tauto |].
    now elim H.
Qed.

(** A kind outside the closed set matches no case of the switch. *)
Lemma unrecognized_no_case (kind : string) :
  ~ In kind recognized_kinds ->
  (kind =? "deployment")%string = false /\
  (kind =? "service")%string = false /\
  (kind =? "job")%string = false /\
  (kind =? "persistentvolumeclaim")%string = false /\
  (kind =? "configmap")%string = false /\
  (kind =? "petset")%string = false.
Proof.
  intros H. repeat split; apply String.eqb_neq; intros ->;
    apply H; unfold recognized_kinds; simpl; tauto.
Qed.

Section DispatcherProperties.

Variables Body Selector Cluster : Type.
Variable labels_Parse : string -> error + Selector.
Variable kubeClient : Call Body Selector -> Cluster -> Response * Cluster.

(** One call followed by a pure continuation. *)
Lemma run_call_ret {A} (c : Call Body Selector) (f : Response -> A) (w : Cluster) :
  bind (call kubeClient c) (fun r => ret (f r)) w =
  (Returned (f (fst (kubeClient c w))), snd (kubeClient c w), [c]).
Proof.
  unfold bind, call, ret. destruct (kubeClient c w) as [r w1]. reflexivity.
Qed.

(** The existence check of a recognized kind is one get followed by the
    classification of its error. *)
Lemma checkResourceExist_recognized (kind name namespace : string)
    (r : Resource) (w : Cluster) :
  kind_resource kind = Some r ->
  checkResourceExist kubeClient kind name namespace w =
  (Returned (exist_result (err (fst (kubeClient (Get r namespace name) w)))),
   snd (kubeClient (Get r namespace name) w),
   [Get r namespace name]).
Proof.
  unfold kind_resource, checkResourceExist.
  repeat match goal with
         | |- context [if ?b then _ else _] => destruct b
         end; intros H; inversion H; subst; apply run_call_ret.
Qed.

(** C1: for every recognized kind, the existence check issues the get of
    that kind and returns (true, nil) when the get succeeds, (false, nil)
    exactly when the get's error is a status error with code 404, and
    (false, err) with the get's own error in every other case. *)
Theorem checkResourceExist_classifies :
  forall (kind name namespace : string) (w : Cluster),
    In kind recognized_kinds ->
    exists r b e,
      kind_resource kind = Some r /\
      checkResourceExist kubeClient kind name namespace w =
        (Returned (b, e), snd (kubeClient (Get r namespace name) w),
         [Get r namespace name]) /\
      let got := err (fst (kubeClient (Get r namespace name) w)) in
      (got = None -> (b, e) = (true, None)) /\
      ((b, e) = (false, None) <-> exists e0, got = Some e0 /\ is_status_404 e0) /\
      (forall e0, got = Some e0 -> ~ is_status_404 e0 -> (b, e) = (false, Some e0)).
Proof.
  intros kind name namespace w Hin.
  apply kind_resource_recognized in Hin.
  destruct (kind_resource kind) as [r |] eqn:Hr; [clear Hin | now elim Hin].
  exists r.
  exists (fst (exist_result (err (fst (kubeClient (Get r namespace name) w))))).
  exists (snd (exist_result (err (fst (kubeClient (Get r namespace name) w))))).
  split; [reflexivity |].
  split.
  - rewrite <- surjective_pairing.
    now apply checkResourceExist_recognized.
  - cbv zeta. rewrite <- surjective_pairing.
    destruct (err (fst (kubeClient (Get r namespace name) w))) as [e0 |]; simpl.
    + destruct (isResourceNotExist e0) eqn:E.
      * apply isResourceNotExist_true_iff in E.
        split; [discriminate |].
        split; [split; [intros _; now exists e0 | reflexivity] |].
        intros e1 H1 H2. inversion H1; subst. now elim H2.
      * apply isResourceNotExist_false_iff in E.
        split; [discriminate |].
        split; [split; [discriminate |] |].
        -- intros (e1 & H1 & H2). inversion H1; subst. now elim E.
        -- intros e1 H1 _. now inversion H1.
    + split; [reflexivity |].
      split; [split; [discriminate | intros (e1 & H1 & _); discriminate] |].
      intros e1 H1. discriminate.
Qed.

Lemma exist_result_consistent (got : option error) :
  (fst (exist_result got) = true -> snd (exist_result got) = None) /\
  (snd (exist_result got) <> None -> fst (exist_result got) = false).
Proof.
  destruct got as [e |]; simpl.
  - destruct (isResourceNotExist e); simpl; split;
      try discriminate; reflexivity.
  - split; [reflexivity | intros H; now elim H].
Qed.

(** C10: the existence check always returns, and its pair is consistent:
    a true result comes with a nil error, and a non-nil error comes with a
    false result. *)
Theorem checkResourceExist_pair_consistent :
  forall (kind name namespace : string) (w : Cluster),
    exists b e w' t,
      checkResourceExist kubeClient kind name namespace w =
        (Returned (b, e), w', t) /\
      (b = true -> e = None) /\
      (e <> None -> b = false).
Proof.
  intros kind name namespace w.
  destruct (kind_resource kind) as [r |] eqn:Hr.
  - pose proof (checkResourceExist_recognized kind name namespace w Hr) as H.
    pose proof (exist_result_consistent
                  (err (fst (kubeClient (Get r namespace name) w)))) as [H1 H2].
    rewrite (surjective_pairing (exist_result _)) in H.
    eauto 10.
  - assert (Hn : ~ In kind recognized_kinds)
      by (rewrite kind_resource_recognized; intros H; now apply H).
    apply unrecognized_no_case in Hn.
    destruct Hn as (E1 & E2 & E3 & E4 & E5 & E6).
    unfold checkResourceExist. rewrite E1, E2, E3, E4, E5, E6.
    exists false, (Some (UnsupportedResource kind)), w, [].
    split; [reflexivity |]. split; [discriminate | reflexivity].
Qed.

(** C3: for a kind outside the closed set, the existence check, the create
    and the destroy each return UnsupportedResource(kind), issue no call
    and leave the cluster as it was. *)
Theorem unrecognized_kind_unsupported :
  forall (kind name namespace : string) (resourceData : Dynamic Body)
         (w : Cluster),
    ~ In kind recognized_kinds ->
    checkResourceExist kubeClient kind name namespace w =
      (Returned (false, Some (UnsupportedResource kind)), w, []) /\
    createResource kubeClient kind namespace resourceData w =
      (Returned (Some (UnsupportedResource kind)), w, []) /\
    destroyResource labels_Parse kubeClient kind name namespace w =
      (Returned (Some (UnsupportedResource kind)), w, []).
Proof.
  intros kind name namespace resourceData w Hn.
  apply unrecognized_no_case in Hn.
  destruct Hn as (E1 & E2 & E3 & E4 & E5 & E6).
  unfold checkResourceExist, createResource, destroyResource.
  rewrite E1, E2, E3, E4, E5, E6. repeat split.
Qed.

(** ** Namespaces *)

(** C4: createNamespace begins with a get of the namespace; when the get
    succeeds it returns nil having made no create call; when the get fails
    with a 404 status error it makes exactly one create call and returns
    that call's error; when the get fails otherwise it returns the get's
    error having made no create call; and it never issues a delete. *)
Theorem createNamespace_get_or_create :
  forall (namespace : string) (w : Cluster),
    let got := kubeClient (NamespacesGet namespace) w in
    let made :=
      kubeClient (NamespacesCreate {| ObjectMeta_Name := namespace |}) (snd got) in
    exists res w' t,
      createNamespace kubeClient namespace w = (Returned res, w', t) /\
      (exists t', t = NamespacesGet namespace :: t') /\
      (err (fst got) = None ->
         res = None /\ w' = snd got /\ t = [NamespacesGet namespace] /\
         count_calls is_create t = 0%nat) /\
      (forall e, err (fst got) = Some e -> is_status_404 e ->
         res = err (fst made) /\ w' = snd made /\
         t = [NamespacesGet namespace;
              NamespacesCreate {| ObjectMeta_Name := namespace |}] /\
         count_calls is_create t = 1%nat) /\
      (forall e, err (fst got) = Some e -> ~ is_status_404 e ->
         res = Some e /\ w' = snd got /\ t = [NamespacesGet namespace] /\
         count_calls is_create t = 0%nat) /\
      count_calls is_delete t = 0%nat.
Proof.
  intros namespace w. cbv zeta.
  unfold createNamespace, bind, call, ret.
  destruct (kubeClient (NamespacesGet namespace) w) as [r w1]; simpl.
  destruct (err r) as [e |] eqn:He.
  - destruct (isResourceNotExist e) eqn:E; simpl.
    + apply isResourceNotExist_true_iff in E.
      destruct (kubeClient (NamespacesCreate {| ObjectMeta_Name := namespace |}) w1)
        as [r2 w2]; simpl.
      do 3 eexists. split; [reflexivity |].
      split; [eexists; reflexivity |].
      split; [discriminate |].
      split; [intros e1 H1 _; repeat split |].
      split; [| reflexivity].
      intros e1 H1 H2. inversion H1; subst. now elim H2.
    + apply isResourceNotExist_false_iff in E.
      do 3 eexists. split; [reflexivity |].
      split; [eexists; reflexivity |].
      split; [discriminate |].
      split; [intros e1 H1 H2; inversion H1; subst; now elim E |].
      split; [| reflexivity].
      intros e1 H1 _. inversion H1; subst. repeat split.
  - do 3 eexists. split; [reflexivity |].
    split; [eexists; reflexivity |].
    split; [intros _; repeat split |].
    split; [discriminate |].
    split; [discriminate | reflexivity].
Qed.

(** ** Cascading deletes *)

(** The loop over the listed children follows [child_deletes]. *)
Lemma range_child_deletes (child : Resource) (namespace : string)
    (items : list string) :
  forall w,
    exists res w' t,
      range_until_error items
        (fun n => bind (call kubeClient
                          (Delete child namespace n (NewDeleteOptions 0)))
                       (fun d => ret (err d))) w
      = (Returned res, w', t) /\
      child_deletes kubeClient child namespace items w res w' t.
Proof.
  induction items as [| n rest IH]; intros w.
  - exists None, w, []. split; [reflexivity | constructor].
  - simpl. unfold bind at 1. rewrite run_call_ret.
    destruct (kubeClient (Delete child namespace n (NewDeleteOptions 0)) w)
      as [r w1] eqn:Hk; simpl.
    destruct (err r) as [e |] eqn:He.
    + exists (Some e), w1, [Delete child namespace n (NewDeleteOptions 0)].
      split; [reflexivity |]. eapply child_deletes_abort; eassumption.
    + destruct (IH w1) as (res & w' & t & Hrun & Hspec).
      rewrite Hrun.
      exists res, w', (Delete child namespace n (NewDeleteOptions 0) :: t).
      split; [reflexivity |]. eapply child_deletes_next; eassumption.
Qed.

Lemma destroyDeployment_cascade (name namespace : string) (w : Cluster) :
  exists res w' t,
    destroyDeployment labels_Parse kubeClient name namespace w
      = (Returned res, w', t) /\
    cascade labels_Parse kubeClient Deployments ReplicaSets
      ("name=" ++ name)%string name namespace w res w' t.
Proof.
  unfold destroyDeployment. cbv zeta. unfold bind at 1, call at 1.
  destruct (kubeClient (Delete Deployments namespace name (NewDeleteOptions 0)) w)
    as [r w1] eqn:Hd.
  destruct (err r) as [e |] eqn:He.
  - do 3 eexists. split; [reflexivity |].
    eapply cascade_parent_fails; eassumption.
  - destruct (labels_Parse ("name=" ++ name)%string) as [e | sel] eqn:Hp.
    + do 3 eexists. split; [reflexivity |].
      eapply cascade_selector_fails; eassumption.
    + unfold bind at 1, call at 1.
      destruct (kubeClient (List ReplicaSets namespace {| LabelSelector := sel |}) w1)
        as [l w2] eqn:Hl.
      destruct (err l) as [e |] eqn:Hle.
      * do 3 eexists. split; [reflexivity |].
        eapply cascade_list_fails; eassumption.
      * destruct (range_child_deletes ReplicaSets namespace (Items l) w2)
          as (res & w3 & t & Hrun & Hspec).
        rewrite Hrun.
        do 3 eexists. split; [reflexivity |].
        eapply cascade_children; eassumption.
Qed.

Lemma destroyJob_cascade (name namespace : string) (w : Cluster) :
  exists res w' t,
    destroyJob labels_Parse kubeClient name namespace w
      = (Returned res, w', t) /\
    cascade labels_Parse kubeClient Jobs Pods
      ("job-name=" ++ name)%string name namespace w res w' t.
Proof.
  unfold destroyJob. cbv zeta. unfold bind at 1, call at 1.
  destruct (kubeClient (Delete Jobs namespace name (NewDeleteOptions 0)) w)
    as [r w1] eqn:Hd.
  destruct (err r) as [e |] eqn:He.
  - do 3 eexists. split; [reflexivity |].
    eapply cascade_parent_fails; eassumption.
  - destruct (labels_Parse ("job-name=" ++ name)%string) as [e | sel] eqn:Hp.
    + do 3 eexists. split; [reflexivity |].
      eapply cascade_selector_fails; eassumption.
    + unfold bind at 1, call at 1.
      destruct (kubeClient (List Pods namespace {| LabelSelector := sel |}) w1)
        as [l w2] eqn:Hl.
      destruct (err l) as [e |] eqn:Hle.
      * do 3 eexists. split; [reflexivity |].
        eapply cascade_list_fails; eassumption.
      * destruct (range_child_deletes Pods namespace (Items l) w2)
          as (res & w3 & t & Hrun & Hspec).
        rewrite Hrun.
        do 3 eexists. split; [reflexivity |].
        eapply cascade_children; eassumption.
Qed.

(** When nothing fails, every listed child is deleted, in the order of
    the list. *)
Lemma child_deletes_complete (child : Resource) (namespace : string)
    (items : list string) (w w' : Cluster) (t : list (Call Body Selector)) :
  child_deletes kubeClient child namespace items w None w' t ->
  t = map (fun n => Delete child namespace n (NewDeleteOptions 0)) items.
Proof.
  intros H. remember None as res eqn:Hres.
  induction H; try discriminate; simpl.
  - reflexivity.
  - f_equal. now apply IHchild_deletes.
Qed.

(** The deletes issued form a prefix of the list of children. *)
Lemma child_deletes_prefix (child : Resource) (namespace : string)
    (items : list string) (w w' : Cluster) (res : option error)
    (t : list (Call Body Selector)) :
  child_deletes kubeClient child namespace items w res w' t ->
  exists k,
    t = map (fun n => Delete child namespace n (NewDeleteOptions 0))
            (firstn k items).
Proof.
  induction 1.
  - exists 0%nat. reflexivity.
  - exists 1%nat. reflexivity.
  - destruct IHchild_deletes as [k Hk]. exists (S k). simpl. now f_equal.
Qed.

(** The relation leaves no freedom: from a given state it admits one
    result, one final state and one trace. *)
Lemma child_deletes_functional (child : Resource) (namespace : string)
    (items : list string) (w w1 w2 : Cluster) (res1 res2 : option error)
    (t1 t2 : list (Call Body Selector)) :
  child_deletes kubeClient child namespace items w res1 w1 t1 ->
  child_deletes kubeClient child namespace items w res2 w2 t2 ->
  res1 = res2 /\ w1 = w2 /\ t1 = t2.
Proof.
  intros H1. revert res2 w2 t2.
  induction H1 as [w | n rest w r w' e Hk He | n rest w r w' res w'' t Hk He Hrest IH];
    intros res2 w2 t2 H2; inversion H2; subst.
  - auto.
  - match goal with
    | H : kubeClient _ w = (?r', ?v) |- _ =>
        rewrite Hk in H; inversion H; subst
    end.
    split; [congruence | auto].
  - match goal with
    | H : kubeClient _ w = (?r', ?v) |- _ =>
        rewrite Hk in H; inversion H; subst
    end.
    congruence.
  - match goal with
    | H : kubeClient _ w = (?r', ?v) |- _ =>
        rewrite Hk in H; inversion H; subst
    end.
    congruence.
  - match goal with
    | H : kubeClient _ w = (?r', ?v) |- _ =>
        rewrite Hk in H; inversion H; subst
    end.
    match goal with
    | H : child_deletes _ _ _ rest _ _ _ _ |- _ =>
        destruct (IH _ _ _ H) as (-> & -> & ->)
    end.
    auto.
Qed.

Lemma cascade_functional (parent child : Resource)
    (selector name namespace : string) (w w1 w2 : Cluster)
    (res1 res2 : option error) (t1 t2 : list (Call Body Selector)) :
  cascade labels_Parse kubeClient parent child selector name namespace w res1 w1 t1 ->
  cascade labels_Parse kubeClient parent child selector name namespace w res2 w2 t2 ->
  res1 = res2 /\ w1 = w2 /\ t1 = t2.
Proof.
  intros H1 H2.
  inversion H1; subst; inversion H2; subst;
    repeat match goal with
           | Ha : kubeClient ?c ?v = _, Hb : kubeClient ?c ?v = _ |- _ =>
               rewrite Ha in Hb; inversion Hb; subst; clear Hb
           | Ha : labels_Parse ?s = _, Hb : labels_Parse ?s = _ |- _ =>
               rewrite Ha in Hb; inversion Hb; subst; clear Hb
           end;
    try congruence;
    try (split; [congruence | auto]).
  match goal with
  | Ha : child_deletes _ _ _ _ _ _ _ _, Hb : child_deletes _ _ _ _ _ _ _ _ |- _ =>
      destruct (child_deletes_functional Ha Hb) as (-> & -> & ->)
  end.
  auto.
Qed.

(** C2: destroying a deployment deletes the deployment, lists the replica
    sets of the namespace under the selector parsed from name=NAME and
    deletes each replica set returned; destroying a job deletes the job,
    lists the pods under job-name=NAME and deletes each pod returned; in
    both, the first step that fails ends the sequence, its error is the
    result, and no further call is issued. *)
Theorem destroy_cascades_in_order :
  forall (name namespace : string) (w : Cluster),
    (exists res w' t,
       destroyDeployment labels_Parse kubeClient name namespace w
         = (Returned res, w', t) /\
       cascade labels_Parse kubeClient Deployments ReplicaSets
         ("name=" ++ name)%string name namespace w res w' t) /\
    (exists res w' t,
       destroyJob labels_Parse kubeClient name namespace w
         = (Returned res, w', t) /\
       cascade labels_Parse kubeClient Jobs Pods
         ("job-name=" ++ name)%string name namespace w res w' t).
Proof.
  intros name namespace w. split.
  - apply destroyDeployment_cascade.
  - apply destroyJob_cascade.
Qed.

(** A cascade that returns nil issued the whole sequence: parent delete,
    list, one delete per listed child. *)
Lemma cascade_complete (parent child : Resource) (selector name namespace : string)
    (w w' : Cluster) (t : list (Call Body Selector)) :
  cascade labels_Parse kubeClient parent child selector name namespace w None w' t ->
  exists sel w1 l,
    labels_Parse selector = inr sel /\
    fst (kubeClient (List child namespace {| LabelSelector := sel |}) w1) = l /\
    t = Delete parent namespace name (NewDeleteOptions 0)
        :: List child namespace {| LabelSelector := sel |}
        :: map (fun n => Delete child namespace n (NewDeleteOptions 0)) (Items l).
Proof.
  intros H. inversion H; subst.
  exists sel, w1, l. split; [assumption |]. split.
  - match goal with
    | Hl : kubeClient (List _ _ _) _ = _ |- _ => now rewrite Hl
    end.
  - do 2 f_equal. eapply child_deletes_complete; eassumption.
Qed.

(** C8: when the parent delete has succeeded and the selector text does
    not parse, destroyDeployment and destroyJob return the parse error; the
    parent delete is the only call issued, so the parent is gone and
    neither the list nor any child delete takes place. *)
Theorem cascade_selector_parse_failure :
  forall (name namespace : string) (w : Cluster),
    (forall e,
       err (fst (kubeClient
                   (Delete Deployments namespace name (NewDeleteOptions 0)) w))
         = None ->
       labels_Parse ("name=" ++ name)%string = inl e ->
       destroyDeployment labels_Parse kubeClient name namespace w =
         (Returned (Some e),
          snd (kubeClient
                 (Delete Deployments namespace name (NewDeleteOptions 0)) w),
          [Delete Deployments namespace name (NewDeleteOptions 0)])) /\
    (forall e,
       err (fst (kubeClient
                   (Delete Jobs namespace name (NewDeleteOptions 0)) w))
         = None ->
       labels_Parse ("job-name=" ++ name)%string = inl e ->
       destroyJob labels_Parse kubeClient name namespace w =
         (Returned (Some e),
          snd (kubeClient (Delete Jobs namespace name (NewDeleteOptions 0)) w),
          [Delete Jobs namespace name (NewDeleteOptions 0)])).
Proof.
  intros name namespace w. split; intros e Hd Hp.
  - unfold destroyDeployment. cbv zeta. unfold bind, call.
    destruct (kubeClient (Delete Deployments namespace name (NewDeleteOptions 0)) w)
      as [r w1]; simpl in *.
    rewrite Hd, Hp. reflexivity.
  - unfold destroyJob. cbv zeta. unfold bind, call.
    destruct (kubeClient (Delete Jobs namespace name (NewDeleteOptions 0)) w)
      as [r w1]; simpl in *.
    rewrite Hd, Hp. reflexivity.
Qed.

(** ** Grace period *)

Lemma immediate_delete (r : Resource) (namespace name : string) :
  immediate (Delete (Body := Body) (Selector := Selector)
               r namespace name (NewDeleteOptions 0)).
Proof.
  intros r' namespace' name' o H. inversion H; subst. reflexivity.
Qed.

Lemma immediate_list (r : Resource) (namespace : string)
    (o : ListOptions Selector) :
  immediate (List (Body := Body) r namespace o).
Proof.
  intros r' namespace' name' o' H. discriminate.
Qed.

Lemma child_deletes_immediate (child : Resource) (namespace : string)
    (items : list string) (w w' : Cluster) (res : option error)
    (t : list (Call Body Selector)) :
  child_deletes kubeClient child namespace items w res w' t ->
  Forall immediate t.
Proof.
  induction 1; repeat constructor;
    try apply immediate_delete; assumption.
Qed.

Lemma cascade_immediate (parent child : Resource)
    (selector name namespace : string) (w w' : Cluster) (res : option error)
    (t : list (Call Body Selector)) :
  cascade labels_Parse kubeClient parent child selector name namespace w res w' t ->
  Forall immediate t.
Proof.
  intros H. inversion H; subst; repeat constructor;
    try apply immediate_delete; try apply immediate_list.
  eapply child_deletes_immediate; eassumption.
Qed.

Lemma cascade_parent_first (parent child : Resource)
    (selector name namespace : string) (w w' : Cluster) (res : option error)
    (t : list (Call Body Selector)) :
  cascade labels_Parse kubeClient parent child selector name namespace w res w' t ->
  exists t', t = Delete parent namespace name (NewDeleteOptions 0) :: t'.
Proof.
  intros H. inversion H; subst; eexists; reflexivity.
Qed.

(** C6: every delete issued by destroyResource carries a grace period of
    zero seconds: for service, persistentvolumeclaim, configmap and petset
    the run is the single delete of the named object with
    NewDeleteOptions(0); for deployment and job the run starts with the
    parent delete with NewDeleteOptions(0); and in every run, whatever the
    kind, each delete in the trace has GracePeriodSeconds = 0. *)
Theorem destroyResource_zero_grace :
  forall (kind name namespace : string) (w : Cluster),
    let t := calls (destroyResource labels_Parse kubeClient kind name namespace w) in
    Forall immediate t /\
    (forall r,
       In kind ["service"; "persistentvolumeclaim"; "configmap"; "petset"] ->
       kind_resource kind = Some r ->
       t = [Delete r namespace name (NewDeleteOptions 0)]) /\
    (forall r,
       In kind ["deployment"; "job"] ->
       kind_resource kind = Some r ->
       exists t', t = Delete r namespace name (NewDeleteOptions 0) :: t').
Proof.
  intros kind name namespace w. cbv zeta.
  destruct (destroyDeployment_cascade name namespace w)
    as (resD & wD & tD & HrunD & HspecD).
  destruct (destroyJob_cascade name namespace w)
    as (resJ & wJ & tJ & HrunJ & HspecJ).
  unfold destroyResource, kind_resource. cbv zeta.
  destruct (kind =? "deployment")%string eqn:E1.
  { apply String.eqb_eq in E1; subst kind. rewrite HrunD. unfold calls; simpl.
    split; [eapply cascade_immediate; eassumption |].
    split.
    - intros r [H | [H | [H | [H | []]]]]; discriminate.
    - intros r _ Hr. inversion Hr; subst.
      eapply cascade_parent_first; eassumption. }
  destruct (kind =? "service")%string eqn:E2.
  { apply String.eqb_eq in E2; subst kind. rewrite run_call_ret.
    unfold calls; simpl.
    split; [repeat constructor; apply immediate_delete |].
    split.
    - intros r _ Hr. now inversion Hr.
    - intros r [H | [H | []]]; discriminate. }
  destruct (kind =? "job")%string eqn:E3.
  { apply String.eqb_eq in E3; subst kind. rewrite HrunJ. unfold calls; simpl.
    split; [eapply cascade_immediate; eassumption |].
    split.
    - intros r [H | [H | [H | [H | []]]]]; discriminate.
    - intros r _ Hr. inversion Hr; subst.
      eapply cascade_parent_first; eassumption. }
  destruct (kind =? "persistentvolumeclaim")%string eqn:E4.
  { apply String.eqb_eq in E4; subst kind. rewrite run_call_ret.
    unfold calls; simpl.
    split; [repeat constructor; apply immediate_delete |].
    split.
    - intros r _ Hr. now inversion Hr.
    - intros r [H | [H | []]]; discriminate. }
  destruct (kind =? "configmap")%string eqn:E5.
  { apply String.eqb_eq in E5; subst kind. rewrite run_call_ret.
    unfold calls; simpl.
    split; [repeat constructor; apply immediate_delete |].
    split.
    - intros r _ Hr. now inversion Hr.
    - intros r [H | [H | []]]; discriminate. }
  destruct (kind =? "petset")%string eqn:E6.
  { apply String.eqb_eq in E6; subst kind. rewrite run_call_ret.
    unfold calls; simpl.
    split; [repeat constructor; apply immediate_delete |].
    split.
    - intros r _ Hr. now inversion Hr.
    - intros r [H | [H | []]]; discriminate. }
  unfold calls; simpl.
  split; [constructor |]. split; intros r _ Hr; discriminate.
Qed.

End DispatcherProperties.

(** ** Client loader *)

Section ClientLoaderProperties.

Variables RestConfig Clientset : Type.
Variable ClientConfig :
  ClientConfigLoadingRules -> ConfigOverrides -> error + RestConfig.
Variable NewForConfig : RestConfig -> error + Clientset.

(** C7, as amended: the loader hands the configured path to the
    kubeconfig loader as its explicit path, and the rules it hands over
    never carry a discovery chain (the precedence list is nil), so with an
    empty path they are the zero-valued rules, which name no kubeconfig
    file at all; it overrides the current context with the configured
    context when that is not empty and overrides nothing when it is empty;
    and it returns the client built from the resulting configuration, or
    the error of whichever step failed. *)
Theorem loadKubernetesClient_precedence :
  forall config : appConfig,
    ExplicitPath (clientConfigLoader config) = configFile config /\
    Precedence (clientConfigLoader config) = [] /\
    ~ default_discovery (clientConfigLoader config) /\
    (configFile config = "" ->
       clientConfigLoader config = zero_ClientConfigLoadingRules) /\
    (context config <> "" ->
       CurrentContext (configOverrides config) = context config) /\
    (context config = "" -> configOverrides config = zero_ConfigOverrides) /\
    (forall e,
       ClientConfig (clientConfigLoader config) (configOverrides config) = inl e ->
       loadKubernetesClient ClientConfig NewForConfig config = inl e) /\
    (forall kubeConfig,
       ClientConfig (clientConfigLoader config) (configOverrides config)
         = inr kubeConfig ->
       loadKubernetesClient ClientConfig NewForConfig config
         = NewForConfig kubeConfig).
Proof.
  intros config.
  split; [reflexivity |].
  split; [reflexivity |].
  split.
  { unfold default_discovery. simpl. intros H. now apply H. }
  split.
  { intros H. unfold clientConfigLoader. now rewrite H. }
  split.
  { intros H. unfold configOverrides.
    destruct (context config =? "")%string eqn:E; simpl; [| reflexivity].
    apply String.eqb_eq in E. now elim H. }
  split.
  { intros H. unfold configOverrides. now rewrite H. }
  split.
  - intros e H. unfold loadKubernetesClient. now rewrite H.
  - intros kc H. unfold loadKubernetesClient. now rewrite H.
Qed.

End ClientLoaderProperties.

(** ** Manifest decoder *)

Section ManifestDecoderProperties.

Variable yaml_document : list Byte.byte -> error + Document.

Lemma loadKubernetesResource_document (data : list Byte.byte) (doc : Document) :
  yaml_document data = inr doc ->
  loadKubernetesResource yaml_document data =
  (Some {| Kind := decode_field doc ["kind"] "";
           Metadata :=
             {| Name := decode_field doc ["metadata"; "name"] "";
                Namespace := decode_field doc ["metadata"; "namespace"] "" |} |},
   None).
Proof.
  intros H. unfold loadKubernetesResource, yaml_Unmarshal. now rewrite H.
Qed.

(** C5: a manifest whose document holds kind service, metadata.name api
    and metadata.namespace prod decodes to the descriptor
    (service, api, prod); bytes the YAML library rejects give a nil
    descriptor and the library's error; a document without
    metadata.namespace decodes without error, with the empty string as
    namespace. *)
Theorem loadKubernetesResource_decodes :
  forall data : list Byte.byte,
    (forall doc,
       yaml_document data = inr doc ->
       doc ["kind"] = Some "service" ->
       doc ["metadata"; "name"] = Some "api" ->
       doc ["metadata"; "namespace"] = Some "prod" ->
       loadKubernetesResource yaml_document data =
         (Some {| Kind := "service";
                  Metadata := {| Name := "api"; Namespace := "prod" |} |},
          None)) /\
    (forall e,
       yaml_document data = inl e ->
       loadKubernetesResource yaml_document data = (None, Some e)) /\
    (forall doc,
       yaml_document data = inr doc ->
       doc ["metadata"; "namespace"] = None ->
       exists r,
         loadKubernetesResource yaml_document data = (Some r, None) /\
         Namespace (Metadata r) = "").
Proof.
  intros data. split; [| split].
  - intros doc H Hk Hn Hs.
    rewrite (loadKubernetesResource_document H).
    unfold decode_field. now rewrite Hk, Hn, Hs.
  - intros e H. unfold loadKubernetesResource, yaml_Unmarshal. now rewrite H.
  - intros doc H Hs. eexists. split.
    + apply (loadKubernetesResource_document H).
    + simpl. unfold decode_field. now rewrite Hs.
Qed.

(** C9: whenever the bytes are a well-formed document, decoding succeeds
    whatever the document holds: a missing kind, a missing metadata.name
    and a missing metadata.namespace each come out as the empty string, a
    document without the metadata block has empty metadata, and an empty
    document gives the zero descriptor; none of these is an error. *)
Theorem loadKubernetesResource_no_presence_validation :
  forall (data : list Byte.byte) (doc : Document),
    yaml_document data = inr doc ->
    exists r,
      loadKubernetesResource yaml_document data = (Some r, None) /\
      (doc ["kind"] = None -> Kind r = "") /\
      (doc ["metadata"; "name"] = None -> Name (Metadata r) = "") /\
      (doc ["metadata"; "namespace"] = None -> Namespace (Metadata r) = "") /\
      ((forall path, hd_error path = Some "metadata" -> doc path = None) ->
         Metadata r = Metadata zero_KubernetesResource) /\
      ((forall path, doc path = None) -> r = zero_KubernetesResource).
Proof.
  intros data doc H. eexists. split.
  - apply (loadKubernetesResource_document H).
  - simpl. unfold decode_field.
    split; [intros ->; reflexivity |].
    split; [intros ->; reflexivity |].
    split; [intros ->; reflexivity |].
    split.
    + intros Hm. now rewrite !Hm.
    + intros Hall. now rewrite !Hall.
Qed.

End ManifestDecoderProperties.

(** * Concrete runs on the in-memory cluster *)

(** The existence check of a service that is not there: the get answers
    404 and the check answers (false, nil). *)
Lemma checkResourceExist_classifies_witness :
  In "service" recognized_kinds /\
  exists r b e,
    kind_resource "service" = Some r /\
    checkResourceExist Demo.client "service" "nope" "prod" Demo.w0 =
      (Returned (b, e), snd (Demo.client (Get r "prod" "nope") Demo.w0),
       [Get r "prod" "nope"]) /\
    let got := err (fst (Demo.client (Get r "prod" "nope") Demo.w0)) in
    (got = None -> (b, e) = (true, None)) /\
    ((b, e) = (false, None) <-> exists e0, got = Some e0 /\ is_status_404 e0) /\
    (forall e0, got = Some e0 -> ~ is_status_404 e0 -> (b, e) = (false, Some e0)).
Proof.
  split.
  - simpl; tauto.
  - apply (@checkResourceExist_classifies _ _ _ Demo.client
             "service" "nope" "prod" Demo.w0).
    simpl; tauto.
Defined.

(** The kind pod is outside the closed set. *)
Lemma unrecognized_kind_unsupported_witness :
  ~ In "pod" recognized_kinds /\
  checkResourceExist Demo.client "pod" "web" "prod" Demo.w0 =
    (Returned (false, Some (UnsupportedResource "pod")), Demo.w0, []) /\
  createResource Demo.client "pod" "prod"
      {| dyn_type := T_other; dyn_value := "web" |} Demo.w0 =
    (Returned (Some (UnsupportedResource "pod")), Demo.w0, []) /\
  destroyResource Demo.parse Demo.client "pod" "web" "prod" Demo.w0 =
    (Returned (Some (UnsupportedResource "pod")), Demo.w0, []).
Proof.
  assert (H : ~ In "pod" recognized_kinds).
  { simpl. intros [H | [H | [H | [H | [H | [H | []]]]]]]; discriminate. }
  split.
  - exact H.
  - apply (@unrecognized_kind_unsupported _ _ _ Demo.parse Demo.client
             "pod" "web" "prod" {| dyn_type := T_other; dyn_value := "web" |}
             Demo.w0 H).
Defined.

(** The empty input is an empty document and decodes to the zero
    descriptor. *)
Lemma loadKubernetesResource_no_presence_validation_witness :
  let doc : Document := fun _ => None in
  Demo.document [] = inr doc /\
  exists r,
    loadKubernetesResource Demo.document [] = (Some r, None) /\
    (doc ["kind"] = None -> Kind r = "") /\
    (doc ["metadata"; "name"] = None -> Name (Metadata r) = "") /\
    (doc ["metadata"; "namespace"] = None -> Namespace (Metadata r) = "") /\
    ((forall path, hd_error path = Some "metadata" -> doc path = None) ->
       Metadata r = Metadata zero_KubernetesResource) /\
    ((forall path, doc path = None) -> r = zero_KubernetesResource).
Proof.
  split.
  - reflexivity.
  - apply (@loadKubernetesResource_no_presence_validation
             Demo.document [] (fun _ => None)).
    reflexivity.
Defined.

(** Ensuring the namespace dev, which is absent: one create, no delete. *)
Lemma createNamespace_get_or_create_witness :
  exists res w' t,
    createNamespace Demo.client "dev" Demo.w0 = (Returned res, w', t) /\
    count_calls is_create t = 1%nat /\
    count_calls is_delete t = 0%nat.
Proof.
  destruct (@createNamespace_get_or_create _ _ _ Demo.client "dev" Demo.w0)
    as (res & w' & t & Hrun & _ & _ & H404 & _ & Hdel).
  exists res, w', t.
  split; [exact Hrun |].
  split; [| exact Hdel].
  apply (H404 Demo.not_found).
  - reflexivity.
  - eexists. split; reflexivity.
Defined.

(** The manifest of the service api in prod, bytes that are not YAML, and
    the empty document. *)
Lemma loadKubernetesResource_decodes_witness :
  loadKubernetesResource Demo.document [Byte.x78] =
    (Some {| Kind := "service";
             Metadata := {| Name := "api"; Namespace := "prod" |} |}, None) /\
  loadKubernetesResource Demo.document [Byte.x7b] =
    (None, Some (OpaqueError "yaml: did not find expected node content")) /\
  exists r,
    loadKubernetesResource Demo.document [] = (Some r, None) /\
    Namespace (Metadata r) = "".
Proof.
  split; [| split].
  - apply (proj1 (@loadKubernetesResource_decodes Demo.document [Byte.x78])
             Demo.manifest); reflexivity.
  - apply (proj1 (proj2 (@loadKubernetesResource_decodes Demo.document [Byte.x7b])));
      reflexivity.
  - apply (proj2 (proj2 (@loadKubernetesResource_decodes Demo.document []))
             (fun _ => None)); reflexivity.
Defined.

(** The name [bad name] gives selector text that does not parse: in both
    cascades the parent delete is the only call. *)
Lemma cascade_selector_parse_failure_witness :
  destroyDeployment Demo.parse Demo.client "bad name" "prod" Demo.w0 =
    (Returned (Some (OpaqueError "invalid label selector")),
     snd (Demo.client (Delete Deployments "prod" "bad name" (NewDeleteOptions 0))
            Demo.w0),
     [Delete Deployments "prod" "bad name" (NewDeleteOptions 0)]) /\
  destroyJob Demo.parse Demo.client "bad name" "prod" Demo.w0 =
    (Returned (Some (OpaqueError "invalid label selector")),
     snd (Demo.client (Delete Jobs "prod" "bad name" (NewDeleteOptions 0))
            Demo.w0),
     [Delete Jobs "prod" "bad name" (NewDeleteOptions 0)]).
Proof.
  destruct (@cascade_selector_parse_failure _ _ _ Demo.parse Demo.client
              "bad name" "prod" Demo.w0) as [HD HJ].
  split; [apply HD | apply HJ]; reflexivity.
Defined.

(** Ensuring a namespace that is there, one that is not, and one on a
    cluster that cannot be reached. *)
Example createNamespace_present :
  createNamespace Demo.client "prod" Demo.w0 =
  (Returned None, Demo.w0, [NamespacesGet "prod"]).
Proof. reflexivity. Qed.

Example createNamespace_absent :
  let '(res, w', t) := createNamespace Demo.client "dev" Demo.w0 in
  res = Returned None /\
  Demo.namespaces w' = ["dev"; "prod"] /\
  t = [NamespacesGet "dev"; NamespacesCreate {| ObjectMeta_Name := "dev" |}].
Proof. repeat split. Qed.

Example createNamespace_unreachable :
  createNamespace Demo.client "dev" Demo.offline =
  (Returned (Some Demo.unreachable), Demo.offline, [NamespacesGet "dev"]).
Proof. reflexivity. Qed.

(** Destroying the deployment web and the job batch-1. *)
Example destroyDeployment_web :
  calls (destroyResource Demo.parse Demo.client "deployment" "web" "prod" Demo.w0) =
  [Delete Deployments "prod" "web" (NewDeleteOptions 0);
   List ReplicaSets "prod" {| LabelSelector := "name=web" |};
   Delete ReplicaSets "prod" "web-1" (NewDeleteOptions 0);
   Delete ReplicaSets "prod" "web-2" (NewDeleteOptions 0)].
Proof. reflexivity. Qed.

Example destroyJob_batch_1 :
  calls (destroyResource Demo.parse Demo.client "job" "batch-1" "prod" Demo.w0) =
  [Delete Jobs "prod" "batch-1" (NewDeleteOptions 0);
   List Pods "prod" {| LabelSelector := "job-name=batch-1" |};
   Delete Pods "prod" "batch-1-x" (NewDeleteOptions 0)].
Proof. reflexivity. Qed.

(** A name whose selector text does not parse: the parent is deleted and
    nothing else happens. *)
Example destroyDeployment_bad_selector :
  let '(res, w', t) :=
    destroyDeployment Demo.parse Demo.client "bad name" "prod" Demo.w0 in
  res = Returned (Some (OpaqueError "invalid label selector")) /\
  existsb (Demo.same Deployments "prod" "bad name") (Demo.objects w') = false /\
  t = [Delete Deployments "prod" "bad name" (NewDeleteOptions 0)].
Proof. repeat split. Qed.

(** A payload of the wrong dynamic type makes the type assertion panic,
    before any call is issued. *)
Example createResource_wrong_payload :
  createResource Demo.client "job" "prod"
    {| dyn_type := T_v1_Service; dyn_value := "api" |} Demo.w0 =
  (Panicked, Demo.w0, []).
Proof. reflexivity. Qed.

(** The manifest of the service api in prod, and bytes that are not YAML. *)
Example loadKubernetesResource_service :
  loadKubernetesResource Demo.document [Byte.x78] =
  (Some {| Kind := "service";
           Metadata := {| Name := "api"; Namespace := "prod" |} |}, None).
Proof. reflexivity. Qed.

Example loadKubernetesResource_garbage :
  loadKubernetesResource Demo.document [Byte.x7b; Byte.x7b] =
  (None, Some (OpaqueError "yaml: did not find expected node content")).
Proof. reflexivity. Qed.

(** Loading a client with and without a context. *)
Example loadKubernetesClient_context :
  loadKubernetesClient Demo.client_config Demo.new_for_config
    {| configFile := "/etc/kube/config"; context := "staging" |}
  = inr "client@staging" /\
  loadKubernetesClient Demo.client_config Demo.new_for_config
    {| configFile := "/etc/kube/config"; context := "" |}
  = inr "client@current" /\
  loadKubernetesClient Demo.client_config Demo.new_for_config
    {| configFile := "/missing"; context := "" |}
  = inl (OpaqueError "stat: no such file or directory").
Proof. repeat split. Qed.

(** C7 as first stated, that an empty path means default discovery is
    used, fails: with an empty path the rules handed to the library carry
    no discovery chain. *)
Lemma loadKubernetesClient_empty_path_no_discovery :
  configFile {| configFile := ""; context := "" |} = "" /\
  ~ default_discovery (clientConfigLoader {| configFile := ""; context := "" |}).
Proof.
  split; [reflexivity |].
  unfold default_discovery. simpl. intros H. now apply H.
Qed.

(** A loader that goes by its rules then finds no configuration. *)
Example loadKubernetesClient_empty_path :
  loadKubernetesClient Demo.client_config Demo.new_for_config
    {| configFile := ""; context := "" |}
  = inl (OpaqueError "invalid configuration: no configuration has been provided").
Proof. reflexivity. Qed.

(** * Further properties of the dispatcher *)

Lemma GoType_eqb_eq (a b : GoType) : GoType_eqb a b = true <-> a = b.
Proof.
  split.
  - destruct a, b; simpl; intros H; try reflexivity; discriminate.
  - intros ->. destruct b; reflexivity.
Qed.

Lemma kind_payload_type_recognized (kind : string) :
  kind_payload_type kind = None <-> kind_resource kind = None.
Proof.
  unfold kind_payload_type, kind_resource.
  repeat match goal with
         | |- context [if ?b then _ else _] => destruct b
         end; split; intros H; try discriminate; reflexivity.
Qed.

Section DispatcherFurther.

Variables Body Selector Cluster : Type.
Variable labels_Parse : string -> error + Selector.
Variable kubeClient : Call Body Selector -> Cluster -> Response * Cluster.

(** A type assertion followed by one create. *)
Lemma run_assert_create (T : GoType) (r : Resource) (namespace : string)
    (x : Dynamic Body) (w : Cluster) :
  bind (type_assert T x)
       (fun obj => bind (call kubeClient (Create r namespace obj))
                        (fun c => ret (err c))) w =
  if GoType_eqb (dyn_type x) T
  then (Returned (err (fst (kubeClient (Create r namespace (dyn_value x)) w))),
        snd (kubeClient (Create r namespace (dyn_value x)) w),
        [Create r namespace (dyn_value x)])
  else (Panicked, w, []).
Proof.
  unfold bind at 1, type_assert.
  destruct (GoType_eqb (dyn_type x) T).
  - unfold ret at 1. rewrite run_call_ret. reflexivity.
  - reflexivity.
Qed.

(** The create of a recognized kind is the type assertion of that kind
    followed by one create on the sub-client of that kind. *)
Lemma createResource_recognized (kind namespace : string)
    (resourceData : Dynamic Body) (r : Resource) (T : GoType) (w : Cluster) :
  kind_resource kind = Some r ->
  kind_payload_type kind = Some T ->
  createResource kubeClient kind namespace resourceData w =
  if GoType_eqb (dyn_type resourceData) T
  then (Returned
          (err (fst (kubeClient (Create r namespace (dyn_value resourceData)) w))),
        snd (kubeClient (Create r namespace (dyn_value resourceData)) w),
        [Create r namespace (dyn_value resourceData)])
  else (Panicked, w, []).
Proof.
  unfold kind_resource, kind_payload_type, createResource.
  repeat match goal with
         | |- context [if (kind =? ?s)%string then _ else _] =>
             destruct (kind =? s)%string
         end; intros H1 H2; inversion H1; inversion H2; subst;
    apply run_assert_create.
Qed.

Lemma createResource_unrecognized (kind namespace : string)
    (resourceData : Dynamic Body) (w : Cluster) :
  kind_resource kind = None ->
  createResource kubeClient kind namespace resourceData w =
  (Returned (Some (UnsupportedResource kind)), w, []).
Proof.
  unfold kind_resource, createResource.
  repeat match goal with
         | |- context [if (kind =? ?s)%string then _ else _] =>
             destruct (kind =? s)%string
         end; intros H; try discriminate H; reflexivity.
Qed.

(** X1: for a recognized kind and a payload of the dynamic type that kind
    asserts, createResource issues exactly one call, the Create on the
    sub-client of that kind in the given namespace with that payload, and
    returns that call's error unchanged (nil when it succeeded). *)
Theorem createResource_creates_once :
  forall (kind namespace : string) (resourceData : Dynamic Body)
         (r : Resource) (T : GoType) (w : Cluster),
    kind_resource kind = Some r ->
    kind_payload_type kind = Some T ->
    dyn_type resourceData = T ->
    createResource kubeClient kind namespace resourceData w =
    (Returned
       (err (fst (kubeClient (Create r namespace (dyn_value resourceData)) w))),
     snd (kubeClient (Create r namespace (dyn_value resourceData)) w),
     [Create r namespace (dyn_value resourceData)]).
Proof.
  intros kind namespace resourceData r T w Hr HT Hd.
  rewrite (createResource_recognized kind namespace resourceData w Hr HT).
  apply GoType_eqb_eq in Hd. now rewrite Hd.
Qed.

(** X2: createResource panics exactly when the kind is recognized and the
    payload's dynamic type is not the one that kind asserts; a run that
    panics has issued no call and leaves the cluster as it was. *)
Theorem createResource_panics_iff :
  forall (kind namespace : string) (resourceData : Dynamic Body) (w : Cluster),
    let run := createResource kubeClient kind namespace resourceData w in
    (fst (fst run) = Panicked <->
     exists T, kind_payload_type kind = Some T /\ dyn_type resourceData <> T) /\
    (fst (fst run) = Panicked -> run = (Panicked, w, [])).
Proof.
  intros kind namespace resourceData w. cbv zeta.
  destruct (kind_resource kind) as [r |] eqn:Hr.
  - destruct (kind_payload_type kind) as [T |] eqn:HT.
    + rewrite (createResource_recognized kind namespace resourceData w Hr HT).
      destruct (GoType_eqb (dyn_type resourceData) T) eqn:E; simpl.
      * apply GoType_eqb_eq in E. split.
        -- split; [discriminate |].
           intros (T' & HT' & Hne). inversion HT'; subst. now elim Hne.
        -- discriminate.
      * split; [| reflexivity]. split; [| reflexivity].
        intros _. exists T. split; [reflexivity |].
        intros Heq. apply GoType_eqb_eq in Heq. congruence.
    + apply kind_payload_type_recognized in HT. congruence.
  - rewrite (createResource_unrecognized kind namespace resourceData w Hr); simpl.
    apply kind_payload_type_recognized in Hr.
    split; [| discriminate]. split; [discriminate |].
    intros (T & HT & _). congruence.
Qed.

(** X3: createResource issues at most one call, and only a Create
    addressed to the namespace it was given: it never reads, lists or
    deletes, and never reaches into another namespace. *)
Theorem createResource_only_creates :
  forall (kind namespace : string) (resourceData : Dynamic Body) (w : Cluster),
    let t := calls (createResource kubeClient kind namespace resourceData w) in
    (length t <= 1)%nat /\
    Forall (fun c => is_create c = true /\ call_namespace c = Some namespace) t.
Proof.
  intros kind namespace resourceData w. cbv zeta.
  destruct (kind_resource kind) as [r |] eqn:Hr.
  - destruct (kind_payload_type kind) as [T |] eqn:HT.
    + rewrite (createResource_recognized kind namespace resourceData w Hr HT).
      destruct (GoType_eqb (dyn_type resourceData) T); unfold calls; simpl.
      * split; [apply le_n | repeat constructor].
      * split; [apply le_0_n | constructor].
    + apply kind_payload_type_recognized in HT. congruence.
  - rewrite (createResource_unrecognized kind namespace resourceData w Hr).
    unfold calls; simpl. split; [apply le_0_n | constructor].
Qed.

Lemma checkResourceExist_unrecognized (kind name namespace : string)
    (w : Cluster) :
  kind_resource kind = None ->
  checkResourceExist kubeClient kind name namespace w =
  (Returned (false, Some (UnsupportedResource kind)), w, []).
Proof.
  unfold kind_resource, checkResourceExist.
  repeat match goal with
         | |- context [if (kind =? ?s)%string then _ else _] =>
             destruct (kind =? s)%string
         end; intros H; try discriminate H; reflexivity.
Qed.

(** X4: checkResourceExist issues at most one call, and only a Get of the
    given name in the given namespace: it never creates, lists or deletes
    anything, whatever the kind and whatever the cluster answers. *)
Theorem checkResourceExist_only_gets :
  forall (kind name namespace : string) (w : Cluster),
    let t := calls (checkResourceExist kubeClient kind name namespace w) in
    (length t <= 1)%nat /\
    Forall (fun c => exists r, c = Get r namespace name) t.
Proof.
  intros kind name namespace w. cbv zeta.
  destruct (kind_resource kind) as [r |] eqn:Hr.
  - rewrite (checkResourceExist_recognized kubeClient kind name namespace w Hr).
    unfold calls; simpl. split; [apply le_n |].
    constructor; [now exists r | constructor].
  - rewrite (checkResourceExist_unrecognized kind name namespace w Hr).
    unfold calls; simpl. split; [apply le_0_n | constructor].
Qed.

(** X5: an error returned by checkResourceExist is never a 404 status
    error: a not-found answer of the cluster is always turned into
    (false, nil), for every kind. *)
Theorem checkResourceExist_never_returns_not_found :
  forall (kind name namespace : string) (w : Cluster) (b : bool) (e : error),
    fst (fst (checkResourceExist kubeClient kind name namespace w))
      = Returned (b, Some e) ->
    ~ is_status_404 e.
Proof.
  intros kind name namespace w b e.
  destruct (kind_resource kind) as [r |] eqn:Hr.
  - rewrite (checkResourceExist_recognized kubeClient kind name namespace w Hr).
    simpl. unfold exist_result.
    destruct (err (fst (kubeClient (Get r namespace name) w))) as [e0 |].
    + destruct (isResourceNotExist e0) eqn:E; intros H; inversion H; subst.
      now apply isResourceNotExist_false_iff.
    + intros H; inversion H.
  - rewrite (checkResourceExist_unrecognized kind name namespace w Hr).
    simpl. intros H; inversion H; subst.
    intros (st & Hst & _). discriminate.
Qed.

(** ** Destroy *)

(** X6: for every recognized kind, when the delete of the named object
    fails, destroyResource returns that error unchanged after this one
    call; a 404 is no exception, so destroying what is not there is an
    error, and for deployment and job neither the list nor any child
    delete is attempted. *)
Theorem destroyResource_delete_error :
  forall (kind name namespace : string) (r : Resource) (e : error) (w : Cluster),
    kind_resource kind = Some r ->
    err (fst (kubeClient (Delete r namespace name (NewDeleteOptions 0)) w))
      = Some e ->
    destroyResource labels_Parse kubeClient kind name namespace w =
    (Returned (Some e),
     snd (kubeClient (Delete r namespace name (NewDeleteOptions 0)) w),
     [Delete r namespace name (NewDeleteOptions 0)]).
Proof.
  intros kind name namespace r e w.
  unfold kind_resource, destroyResource. cbv zeta.
  repeat match goal with
         | |- context [if (kind =? ?s)%string then _ else _] =>
             destruct (kind =? s)%string
         end; intros Hr He; inversion Hr; subst;
    try (rewrite run_call_ret, He; reflexivity).
  - unfold destroyDeployment. cbv zeta. unfold bind, call.
    destruct (kubeClient (Delete Deployments namespace name (NewDeleteOptions 0)) w)
      as [x w1]; simpl in *. now rewrite He.
  - unfold destroyJob. cbv zeta. unfold bind, call.
    destruct (kubeClient (Delete Jobs namespace name (NewDeleteOptions 0)) w)
      as [x w1]; simpl in *. now rewrite He.
Qed.

Lemma child_deletes_discipline (child : Resource) (namespace : string)
    (items : list string) (w w' : Cluster) (res : option error)
    (t : list (Call Body Selector)) :
  child_deletes kubeClient child namespace items w res w' t ->
  Forall (destroy_call namespace) t /\ count_calls is_list t = 0%nat.
Proof.
  induction 1 as [w | n rest w r w' e Hk He | n rest w r w' res w'' t Hk He Hrest IH].
  - split; [constructor | reflexivity].
  - split; [repeat constructor | reflexivity].
  - destruct IH as [IH1 IH2]. split.
    + constructor; [split; reflexivity | exact IH1].
    + exact IH2.
Qed.

Lemma cascade_discipline (parent child : Resource)
    (selector name namespace : string) (w w' : Cluster) (res : option error)
    (t : list (Call Body Selector)) :
  cascade labels_Parse kubeClient parent child selector name namespace w res w' t ->
  Forall (destroy_call namespace) t /\ (count_calls is_list t <= 1)%nat.
Proof.
  intros H. inversion H; subst.
  - split; [repeat constructor | apply le_0_n].
  - split; [repeat constructor | apply le_0_n].
  - split; [repeat constructor | apply le_n].
  - match goal with
    | Hc : child_deletes _ _ _ _ _ _ _ _ |- _ =>
        destruct (child_deletes_discipline Hc) as [Hall Hnone]
    end.
    split.
    + constructor; [split; reflexivity |].
      constructor; [split; reflexivity | exact Hall].
    + unfold count_calls in *. simpl. rewrite Hnone. apply le_n.
Qed.

(** X7: destroyResource always returns (it never panics), and every call
    it issues is a delete or a list addressed to the namespace it was
    given, with at most one list: it never creates or reads an object and
    never reaches into another namespace. *)
Theorem destroyResource_only_deletes_and_lists :
  forall (kind name namespace : string) (w : Cluster),
    exists res w' t,
      destroyResource labels_Parse kubeClient kind name namespace w
        = (Returned res, w', t) /\
      Forall (destroy_call namespace) t /\
      (count_calls is_list t <= 1)%nat.
Proof.
  intros kind name namespace w.
  destruct (destroyDeployment_cascade labels_Parse kubeClient name namespace w)
    as (resD & wD & tD & HrunD & HspecD).
  destruct (destroyJob_cascade labels_Parse kubeClient name namespace w)
    as (resJ & wJ & tJ & HrunJ & HspecJ).
  apply cascade_discipline in HspecD. apply cascade_discipline in HspecJ.
  unfold destroyResource. cbv zeta.
  repeat match goal with
         | |- context [if (kind =? ?s)%string then _ else _] =>
             destruct (kind =? s)%string
         end;
    try (rewrite run_call_ret; do 3 eexists;
         split; [reflexivity |]; split; [repeat constructor | apply le_0_n]).
  - rewrite HrunD. do 3 eexists. split; [reflexivity | exact HspecD].
  - rewrite HrunJ. do 3 eexists. split; [reflexivity | exact HspecJ].
  - do 3 eexists. split; [reflexivity |]. split; [constructor | apply le_0_n].
Qed.

(** The deletes issued are those of the first [k] listed children; all of
    them when the loop ends without error, and at least one otherwise. *)
Lemma child_deletes_counted (child : Resource) (namespace : string)
    (items : list string) (w w' : Cluster) (res : option error)
    (t : list (Call Body Selector)) :
  child_deletes kubeClient child namespace items w res w' t ->
  exists k,
    (k <= length items)%nat /\
    t = map (fun n => Delete child namespace n (NewDeleteOptions 0))
            (firstn k items) /\
    (res = None -> k = length items) /\
    (res <> None -> (1 <= k)%nat).
Proof.
  induction 1 as [w | n rest w r w' e Hk He | n rest w r w' res w'' t Hk He Hrest IH].
  - exists 0%nat. repeat split; auto. intros H; now elim H.
  - exists 1%nat. simpl. repeat split; auto using le_n_S, le_0_n.
    discriminate.
  - destruct IH as (k & Hle & Ht & Hnone & Hsome).
    exists (S k). simpl. repeat split.
    + now apply le_n_S.
    + now f_equal.
    + intros Hres. f_equal. now apply Hnone.
    + intros _. apply le_n_S, le_0_n.
Qed.

(** X8: once the parent is deleted, the selector parsed and the children
    listed, destroyDeployment and destroyJob delete a prefix of the listed
    children in list order and nothing else: every listed child when the
    result is nil, and a non-empty prefix ending at the failing delete
    when it is an error.  No child outside the list is ever deleted. *)
Theorem cascade_deletes_prefix_of_listed :
  forall (name namespace : string) (sel : Selector) (w : Cluster),
    (let del := Delete Deployments namespace name (NewDeleteOptions 0) in
     let lst := List ReplicaSets namespace {| LabelSelector := sel |} in
     let listed := Items (fst (kubeClient lst (snd (kubeClient del w)))) in
     err (fst (kubeClient del w)) = None ->
     labels_Parse ("name=" ++ name)%string = inr sel ->
     err (fst (kubeClient lst (snd (kubeClient del w)))) = None ->
     exists k res w',
       (k <= length listed)%nat /\
       destroyDeployment labels_Parse kubeClient name namespace w =
         (Returned res, w',
          del :: lst
          :: map (fun n => Delete ReplicaSets namespace n (NewDeleteOptions 0))
                 (firstn k listed)) /\
       (res = None -> k = length listed) /\
       (res <> None -> (1 <= k)%nat)) /\
    (let del := Delete Jobs namespace name (NewDeleteOptions 0) in
     let lst := List Pods namespace {| LabelSelector := sel |} in
     let listed := Items (fst (kubeClient lst (snd (kubeClient del w)))) in
     err (fst (kubeClient del w)) = None ->
     labels_Parse ("job-name=" ++ name)%string = inr sel ->
     err (fst (kubeClient lst (snd (kubeClient del w)))) = None ->
     exists k res w',
       (k <= length listed)%nat /\
       destroyJob labels_Parse kubeClient name namespace w =
         (Returned res, w',
          del :: lst
          :: map (fun n => Delete Pods namespace n (NewDeleteOptions 0))
                 (firstn k listed)) /\
       (res = None -> k = length listed) /\
       (res <> None -> (1 <= k)%nat)).
Proof.
  intros name namespace sel w. split; cbv zeta; intros Hd Hp Hl.
  - unfold destroyDeployment. cbv zeta. unfold bind at 1, call at 1.
    destruct (kubeClient (Delete Deployments namespace name (NewDeleteOptions 0)) w)
      as [r w1]; simpl in *.
    rewrite Hd, Hp. unfold bind at 1, call at 1.
    destruct (kubeClient (List ReplicaSets namespace {| LabelSelector := sel |}) w1)
      as [l w2]; simpl in *.
    rewrite Hl.
    destruct (range_child_deletes kubeClient ReplicaSets namespace (Items l) w2)
      as (res & w3 & t & Hrun & Hspec).
    rewrite Hrun.
    destruct (child_deletes_counted Hspec) as (k & Hle & Ht & Hnone & Hsome).
    exists k, res, w3. subst t. repeat split; assumption.
  - unfold destroyJob. cbv zeta. unfold bind at 1, call at 1.
    destruct (kubeClient (Delete Jobs namespace name (NewDeleteOptions 0)) w)
      as [r w1]; simpl in *.
    rewrite Hd, Hp. unfold bind at 1, call at 1.
    destruct (kubeClient (List Pods namespace {| LabelSelector := sel |}) w1)
      as [l w2]; simpl in *.
    rewrite Hl.
    destruct (range_child_deletes kubeClient Pods namespace (Items l) w2)
      as (res & w3 & t & Hrun & Hspec).
    rewrite Hrun.
    destruct (child_deletes_counted Hspec) as (k & Hle & Ht & Hnone & Hsome).
    exists k, res, w3. subst t. repeat split; assumption.
Qed.

(** ** Namespaces *)

Lemma createNamespace_present_run (namespace : string) (w : Cluster) :
  err (fst (kubeClient (NamespacesGet namespace) w)) = None ->
  createNamespace kubeClient namespace w =
  (Returned None, snd (kubeClient (NamespacesGet namespace) w),
   [NamespacesGet namespace]).
Proof.
  intros H. unfold createNamespace, bind, call.
  destruct (kubeClient (NamespacesGet namespace) w) as [r w1]; simpl in *.
  now rewrite H.
Qed.

(** X9: on a cluster where a namespace that was found is found again, and
    a namespace that was created is found afterwards, createNamespace is
    idempotent: after a run that returned nil, a second run on the state
    reached returns nil having issued the get alone, with no create. *)
Theorem createNamespace_idempotent :
  forall (namespace : string) (w w1 : Cluster) (t1 : list (Call Body Selector)),
    (forall n v,
       err (fst (kubeClient (NamespacesGet n) v)) = None ->
       err (fst (kubeClient (NamespacesGet n)
                   (snd (kubeClient (NamespacesGet n) v)))) = None) ->
    (forall n v,
       err (fst (kubeClient (NamespacesCreate {| ObjectMeta_Name := n |}) v))
         = None ->
       err (fst (kubeClient (NamespacesGet n)
                   (snd (kubeClient
                           (NamespacesCreate {| ObjectMeta_Name := n |}) v))))
         = None) ->
    createNamespace kubeClient namespace w = (Returned None, w1, t1) ->
    createNamespace kubeClient namespace w1 =
    (Returned None, snd (kubeClient (NamespacesGet namespace) w1),
     [NamespacesGet namespace]).
Proof.
  intros namespace w w1 t1 Hfound Hcreated Hrun.
  apply createNamespace_present_run.
  unfold createNamespace, bind, call, ret in Hrun.
  pose proof (Hfound namespace w) as Hf.
  destruct (kubeClient (NamespacesGet namespace) w) as [r wa]; simpl in *.
  destruct (err r) as [e |].
  - destruct (isResourceNotExist e); simpl in Hrun; [| discriminate Hrun].
    pose proof (Hcreated namespace wa) as Hc.
    destruct (kubeClient (NamespacesCreate {| ObjectMeta_Name := namespace |}) wa)
      as [r2 wb]; simpl in *.
    injection Hrun as He Hw _. subst w1. now apply Hc.
  - injection Hrun as Hw _. subst w1. now apply Hf.
Qed.

End DispatcherFurther.

(** * Further properties of the manifest decoder *)

Section DecoderFurther.

Variables Body Selector Cluster : Type.
Variable labels_Parse : string -> error + Selector.
Variable kubeClient : Call Body Selector -> Cluster -> Response * Cluster.
Variable yaml_document : list Byte.byte -> error + Document.

(** X10: loadKubernetesResource returns either a descriptor with a nil
    error or a nil descriptor with an error; it never returns both, and
    never neither. *)
Theorem loadKubernetesResource_pair_consistent :
  forall data : list Byte.byte,
    (exists r, loadKubernetesResource yaml_document data = (Some r, None)) \/
    (exists e, loadKubernetesResource yaml_document data = (None, Some e)).
Proof.
  intros data. unfold loadKubernetesResource.
  destruct (yaml_Unmarshal yaml_document data zero_KubernetesResource)
    as [r [e |]].
  - right. now exists e.
  - left. now exists r.
Qed.

Lemma destroyResource_unrecognized (kind name namespace : string) (w : Cluster) :
  kind_resource kind = None ->
  destroyResource labels_Parse kubeClient kind name namespace w =
  (Returned (Some (UnsupportedResource kind)), w, []).
Proof.
  unfold kind_resource, destroyResource. cbv zeta.
  repeat match goal with
         | |- context [if (kind =? ?s)%string then _ else _] =>
             destruct (kind =? s)%string
         end; intros H; try discriminate H; reflexivity.
Qed.

(** X11: the decoder does not check the kind: a document whose kind is
    outside the closed set decodes without error to a descriptor carrying
    that kind, and the kind is rejected only when the descriptor reaches the
    dispatcher, where the existence check and the destroy of the decoded
    descriptor return UnsupportedResource of that kind without any call. *)
Theorem unknown_kind_decodes_then_rejected :
  forall (data : list Byte.byte) (doc : Document) (kind : string) (w : Cluster),
    yaml_document data = inr doc ->
    doc ["kind"] = Some kind ->
    ~ In kind recognized_kinds ->
    exists r,
      loadKubernetesResource yaml_document data = (Some r, None) /\
      Kind r = kind /\
      checkResourceExist kubeClient
        (Kind r) (Name (Metadata r)) (Namespace (Metadata r)) w =
        (Returned (false, Some (UnsupportedResource kind)), w, []) /\
      destroyResource labels_Parse kubeClient
        (Kind r) (Name (Metadata r)) (Namespace (Metadata r)) w =
        (Returned (Some (UnsupportedResource kind)), w, []).
Proof.
  intros data doc kind w Hdoc Hkind Hn.
  assert (Hr : kind_resource kind = None).
  { destruct (kind_resource kind) eqn:E; [| reflexivity].
    elim Hn. apply kind_resource_recognized. congruence. }
  eexists. split; [apply (loadKubernetesResource_document yaml_document data Hdoc) |].
  simpl. unfold decode_field. rewrite Hkind.
  split; [reflexivity |]. split.
  - now apply checkResourceExist_unrecognized.
  - now apply destroyResource_unrecognized.
Qed.

End DecoderFurther.

(** * The three switches agree *)

Section RoutingFurther.

Variables Body Selector Cluster : Type.
Variable labels_Parse : string -> error + Selector.
Variable kubeClient : Call Body Selector -> Cluster -> Response * Cluster.

Lemma destroyResource_first_call (kind name namespace : string) (r : Resource)
    (w : Cluster) :
  kind_resource kind = Some r ->
  exists t',
    calls (destroyResource labels_Parse kubeClient kind name namespace w) =
    Delete r namespace name (NewDeleteOptions 0) :: t'.
Proof.
  destruct (destroyDeployment_cascade labels_Parse kubeClient name namespace w)
    as (resD & wD & tD & HrunD & HspecD).
  destruct (destroyJob_cascade labels_Parse kubeClient name namespace w)
    as (resJ & wJ & tJ & HrunJ & HspecJ).
  apply cascade_parent_first in HspecD. apply cascade_parent_first in HspecJ.
  unfold kind_resource, destroyResource. cbv zeta.
  repeat match goal with
         | |- context [if (kind =? ?s)%string then _ else _] =>
             destruct (kind =? s)%string
         end; intros Hr; inversion Hr; subst;
    try (rewrite run_call_ret; eexists; reflexivity).
  - rewrite HrunD. exact HspecD.
  - rewrite HrunJ. exact HspecJ.
Qed.

(** X12: the three switches route a recognized kind to the same typed
    sub-client: the existence check reads it, the create (given a payload
    of the type the kind asserts) creates on it, and the destroy starts by
    deleting on it, each in the given namespace. *)
Theorem recognized_kind_same_sub_client :
  forall (kind name namespace : string) (resourceData : Dynamic Body)
         (w : Cluster),
    In kind recognized_kinds ->
    exists r T,
      kind_resource kind = Some r /\
      kind_payload_type kind = Some T /\
      calls (checkResourceExist kubeClient kind name namespace w) =
        [Get r namespace name] /\
      (dyn_type resourceData = T ->
       calls (createResource kubeClient kind namespace resourceData w) =
         [Create r namespace (dyn_value resourceData)]) /\
      exists t',
        calls (destroyResource labels_Parse kubeClient kind name namespace w) =
        Delete r namespace name (NewDeleteOptions 0) :: t'.
Proof.
  intros kind name namespace resourceData w Hin.
  apply kind_resource_recognized in Hin.
  destruct (kind_resource kind) as [r |] eqn:Hr; [clear Hin | now elim Hin].
  destruct (kind_payload_type kind) as [T |] eqn:HT;
    [| apply kind_payload_type_recognized in HT; congruence].
  exists r, T.
  split; [reflexivity |]. split; [reflexivity |]. split.
  { now rewrite (checkResourceExist_recognized kubeClient kind name namespace w Hr). }
  split.
  - intros Hd.
    rewrite (createResource_recognized kubeClient kind namespace resourceData w Hr HT).
    apply GoType_eqb_eq in Hd. now rewrite Hd.
  - now apply destroyResource_first_call.
Qed.

End RoutingFurther.

(** * More concrete runs on the in-memory cluster *)

(** A manifest reading in which every input is a document of kind pod. *)
Definition pod_document (data : list Byte.byte) : error + Document :=
  inr (fun path =>
         match path with
         | ["kind"] => Some "pod"
         | ["metadata"; "name"] => Some "web"
         | _ => None
         end).

(** Creating the service cache from a payload of the service type. *)
Lemma createResource_creates_once_witness :
  kind_resource "service" = Some Services /\
  kind_payload_type "service" = Some T_v1_Service /\
  dyn_type {| dyn_type := T_v1_Service; dyn_value := "cache" |} = T_v1_Service /\
  createResource Demo.client "service" "prod"
    {| dyn_type := T_v1_Service; dyn_value := "cache" |} Demo.w0 =
  (Returned (err (fst (Demo.client (Create Services "prod" "cache") Demo.w0))),
   snd (Demo.client (Create Services "prod" "cache") Demo.w0),
   [Create Services "prod" "cache"]).
Proof.
  split; [reflexivity |]. split; [reflexivity |]. split; [reflexivity |].
  apply (@createResource_creates_once _ _ _ Demo.client "service" "prod"
           {| dyn_type := T_v1_Service; dyn_value := "cache" |}
           Services T_v1_Service Demo.w0); reflexivity.
Defined.

(** On a cluster that cannot be reached the existence check returns the
    transport error, which is not a 404. *)
Lemma checkResourceExist_never_returns_not_found_witness :
  fst (fst (checkResourceExist Demo.client "service" "api" "prod" Demo.offline))
    = Returned (false, Some Demo.unreachable) /\
  ~ is_status_404 Demo.unreachable.
Proof.
  split.
  - reflexivity.
  - apply (@checkResourceExist_never_returns_not_found _ _ _ Demo.client
             "service" "api" "prod" Demo.offline false Demo.unreachable).
    reflexivity.
Defined.

(** Destroying a deployment that is not there. *)
Lemma destroyResource_delete_error_witness :
  kind_resource "deployment" = Some Deployments /\
  err (fst (Demo.client
              (Delete Deployments "prod" "ghost" (NewDeleteOptions 0)) Demo.w0))
    = Some Demo.not_found /\
  destroyResource Demo.parse Demo.client "deployment" "ghost" "prod" Demo.w0 =
  (Returned (Some Demo.not_found),
   snd (Demo.client
          (Delete Deployments "prod" "ghost" (NewDeleteOptions 0)) Demo.w0),
   [Delete Deployments "prod" "ghost" (NewDeleteOptions 0)]).
Proof.
  split; [reflexivity |]. split; [reflexivity |].
  apply (@destroyResource_delete_error _ _ _ Demo.parse Demo.client
           "deployment" "ghost" "prod" Deployments Demo.not_found Demo.w0);
    reflexivity.
Defined.

(** Destroying the deployment web and the job batch-1: every listed child
    is deleted. *)
Lemma cascade_deletes_prefix_of_listed_witness :
  (exists k res w',
     (k <= 2)%nat /\
     destroyDeployment Demo.parse Demo.client "web" "prod" Demo.w0 =
       (Returned res, w',
        Delete Deployments "prod" "web" (NewDeleteOptions 0)
        :: List ReplicaSets "prod" {| LabelSelector := "name=web" |}
        :: map (fun n => Delete ReplicaSets "prod" n (NewDeleteOptions 0))
               (firstn k ["web-1"; "web-2"])) /\
     (res = None -> k = 2%nat) /\
     (res <> None -> (1 <= k)%nat)) /\
  (exists k res w',
     (k <= 1)%nat /\
     destroyJob Demo.parse Demo.client "batch-1" "prod" Demo.w0 =
       (Returned res, w',
        Delete Jobs "prod" "batch-1" (NewDeleteOptions 0)
        :: List Pods "prod" {| LabelSelector := "job-name=batch-1" |}
        :: map (fun n => Delete Pods "prod" n (NewDeleteOptions 0))
               (firstn k ["batch-1-x"])) /\
     (res = None -> k = 1%nat) /\
     (res <> None -> (1 <= k)%nat)).
Proof.
  split.
  - apply (proj1 (@cascade_deletes_prefix_of_listed _ _ _ Demo.parse Demo.client
                    "web" "prod" "name=web" Demo.w0)); reflexivity.
  - apply (proj2 (@cascade_deletes_prefix_of_listed _ _ _ Demo.parse Demo.client
                    "batch-1" "prod" "job-name=batch-1" Demo.w0)); reflexivity.
Defined.

(** The in-memory cluster finds again a namespace it has found, and finds
    a namespace it has created. *)
Lemma Demo_namespace_found_again (n : string) (v : Demo.cluster) :
  err (fst (Demo.client (NamespacesGet n) v)) = None ->
  err (fst (Demo.client (NamespacesGet n)
              (snd (Demo.client (NamespacesGet n) v)))) = None.
Proof.
  unfold Demo.client.
  destruct (Demo.reachable v) eqn:R; simpl; [| discriminate].
  destruct (existsb (String.eqb n) (Demo.namespaces v)) eqn:E; simpl;
    [| discriminate].
  intros _. now rewrite R, E.
Defined.

Lemma Demo_namespace_created_found (n : string) (v : Demo.cluster) :
  err (fst (Demo.client (NamespacesCreate {| ObjectMeta_Name := n |}) v)) = None ->
  err (fst (Demo.client (NamespacesGet n)
              (snd (Demo.client (NamespacesCreate {| ObjectMeta_Name := n |}) v))))
    = None.
Proof.
  unfold Demo.client.
  destruct (Demo.reachable v) eqn:R; simpl; [| discriminate].
  destruct (existsb (String.eqb n) (Demo.namespaces v)) eqn:E; simpl;
    [discriminate |].
  intros _. now rewrite String.eqb_refl.
Defined.

(** Ensuring the namespace dev twice: the second run only looks. *)
Lemma createNamespace_idempotent_witness :
  let after := snd (fst (createNamespace Demo.client "dev" Demo.w0)) in
  createNamespace Demo.client "dev" Demo.w0 =
    (Returned None, after,
     [NamespacesGet "dev"; NamespacesCreate {| ObjectMeta_Name := "dev" |}]) /\
  createNamespace Demo.client "dev" after =
    (Returned None, snd (Demo.client (NamespacesGet "dev") after),
     [NamespacesGet "dev"]).
Proof.
  split.
  - reflexivity.
  - apply (@createNamespace_idempotent _ _ _ Demo.client "dev" Demo.w0
             (snd (fst (createNamespace Demo.client "dev" Demo.w0)))
             [NamespacesGet "dev"; NamespacesCreate {| ObjectMeta_Name := "dev" |}]
             Demo_namespace_found_again Demo_namespace_created_found).
    reflexivity.
Defined.

(** A manifest of kind pod decodes, and the dispatcher rejects it. *)
Lemma unknown_kind_decodes_then_rejected_witness :
  ~ In "pod" recognized_kinds /\
  exists r,
    loadKubernetesResource pod_document [] = (Some r, None) /\
    Kind r = "pod" /\
    checkResourceExist Demo.client
      (Kind r) (Name (Metadata r)) (Namespace (Metadata r)) Demo.w0 =
      (Returned (false, Some (UnsupportedResource "pod")), Demo.w0, []) /\
    destroyResource Demo.parse Demo.client
      (Kind r) (Name (Metadata r)) (Namespace (Metadata r)) Demo.w0 =
      (Returned (Some (UnsupportedResource "pod")), Demo.w0, []).
Proof.
  assert (H : ~ In "pod" recognized_kinds).
  { simpl. intros [H | [H | [H | [H | [H | [H | []]]]]]]; discriminate. }
  split.
  - exact H.
  - eapply (@unknown_kind_decodes_then_rejected _ _ _ Demo.parse Demo.client
              pod_document [] _ "pod" Demo.w0).
    + reflexivity.
    + reflexivity.
    + exact H.
Defined.

(** The kind job is read, created and deleted on the jobs sub-client. *)
Lemma recognized_kind_same_sub_client_witness :
  In "job" recognized_kinds /\
  exists r T,
    kind_resource "job" = Some r /\
    kind_payload_type "job" = Some T /\
    calls (checkResourceExist Demo.client "job" "batch-1" "prod" Demo.w0) =
      [Get r "prod" "batch-1"] /\
    (dyn_type {| dyn_type := T_v1batch_Job; dyn_value := "batch-2" |} = T ->
     calls (createResource Demo.client "job" "prod"
              {| dyn_type := T_v1batch_Job; dyn_value := "batch-2" |} Demo.w0) =
       [Create r "prod" "batch-2"]) /\
    exists t',
      calls (destroyResource Demo.parse Demo.client "job" "batch-1" "prod" Demo.w0) =
      Delete r "prod" "batch-1" (NewDeleteOptions 0) :: t'.
Proof.
  assert (H : In "job" recognized_kinds) by (simpl; tauto).
  split.
  - exact H.
  - apply (@recognized_kind_same_sub_client _ _ _ Demo.parse Demo.client
             "job" "batch-1" "prod"
             {| dyn_type := T_v1batch_Job; dyn_value := "batch-2" |} Demo.w0 H).
Defined.
